(** * STM32 ADC core driver (drivers/iio/adc/stm32-adc-core.c)

    Shallow embedding of the shared ADC core: the common interrupt
    demultiplexer, the clock prescaler selection of the stm32f4 and stm32h7
    compatibles, the analog switches supply sequence and the power
    sequencer ([hw_start] / [hw_stop]), and the probe path around them:
    syscfg cells, interrupt lines, external triggers. *)

From Stdlib Require Import String ZArith List Bool Lia.
Import ListNotations.
Open Scope Z_scope.

(** ** Errno values and small helpers *)

Definition ENOENT : Z := 2.
Definition EINVAL : Z := 22.

Definition BIT (n : Z) : Z := Z.shiftl 1 n.

(** GENMASK(h, l) *)
Definition GENMASK (h l : Z) : Z := Z.shiftl (Z.ones (h - l + 1)) l.

(** C truth value of an integer expression. *)
Definition ztrue (v : Z) : bool := negb (v =? 0).

(** ** Common status register bit fields *)

Definition STM32F4_OVR3 := BIT 21.
Definition STM32F4_JEOC3 := BIT 18.
Definition STM32F4_EOC3 := BIT 17.
Definition STM32F4_AWD3 := BIT 16.
Definition STM32F4_OVR2 := BIT 13.
Definition STM32F4_JEOC2 := BIT 10.
Definition STM32F4_EOC2 := BIT 9.
Definition STM32F4_AWD2 := BIT 8.
Definition STM32F4_OVR1 := BIT 5.
Definition STM32F4_JEOC1 := BIT 2.
Definition STM32F4_EOC1 := BIT 1.
Definition STM32F4_AWD1 := BIT 0.
Definition STM32F4_EOC_MASK1 := Z.lor STM32F4_EOC1 (Z.lor STM32F4_AWD1 STM32F4_OVR1).
Definition STM32F4_EOC_MASK2 := Z.lor STM32F4_EOC2 (Z.lor STM32F4_AWD2 STM32F4_OVR2).
Definition STM32F4_EOC_MASK3 := Z.lor STM32F4_EOC3 (Z.lor STM32F4_AWD3 STM32F4_OVR3).
Definition STM32F4_JEOC_MASK1 := Z.lor STM32F4_JEOC1 STM32F4_AWD1.
Definition STM32F4_JEOC_MASK2 := Z.lor STM32F4_JEOC2 STM32F4_AWD2.
Definition STM32F4_JEOC_MASK3 := Z.lor STM32F4_JEOC3 STM32F4_AWD3.

Definition STM32F4_ADC_ADCPRE_SHIFT := 16.
Definition STM32F4_ADC_ADCPRE_MASK := GENMASK 17 16.

Definition STM32H7_AWD3_SLV := BIT 25.
Definition STM32H7_AWD2_SLV := BIT 24.
Definition STM32H7_AWD1_SLV := BIT 23.
Definition STM32H7_JEOS_SLV := BIT 22.
Definition STM32H7_OVR_SLV := BIT 20.
Definition STM32H7_EOC_SLV := BIT 18.
Definition STM32H7_AWD3_MST := BIT 9.
Definition STM32H7_AWD2_MST := BIT 8.
Definition STM32H7_AWD1_MST := BIT 7.
Definition STM32H7_JEOS_MST := BIT 6.
Definition STM32H7_OVR_MST := BIT 4.
Definition STM32H7_EOC_MST := BIT 2.
Definition STM32H7_EOC_MASK1 :=
  Z.lor STM32H7_EOC_MST (Z.lor STM32H7_AWD1_MST (Z.lor STM32H7_AWD2_MST
    (Z.lor STM32H7_AWD3_MST STM32H7_OVR_MST))).
Definition STM32H7_EOC_MASK2 :=
  Z.lor STM32H7_EOC_SLV (Z.lor STM32H7_AWD1_SLV (Z.lor STM32H7_AWD2_SLV
    (Z.lor STM32H7_AWD3_SLV STM32H7_OVR_SLV))).
Definition STM32H7_JEOC_MASK1 :=
  Z.lor STM32H7_JEOS_MST (Z.lor STM32H7_AWD1_MST
    (Z.lor STM32H7_AWD2_MST STM32H7_AWD3_MST)).
Definition STM32H7_JEOC_MASK2 :=
  Z.lor STM32H7_JEOS_SLV (Z.lor STM32H7_AWD1_SLV
    (Z.lor STM32H7_AWD2_SLV STM32H7_AWD3_SLV)).

Definition STM32H7_PRESC_SHIFT := 18.
Definition STM32H7_PRESC_MASK := GENMASK 21 18.
Definition STM32H7_CKMODE_SHIFT := 16.
Definition STM32H7_CKMODE_MASK := GENMASK 17 16.

(** ** Register model: [struct stm32_adc_common_regs]

    The register offsets ([csr], [ccr], [ier]) only locate the words that
    the handler reads; the embedding takes the values read at those
    locations as inputs, so the record keeps the masks.  The enable mask
    [eocie_msk] is defined in the driver header (not part of this file),
    so the compatible register sets below take it as a parameter. *)

Record stm32_adc_common_regs := {
  eoc1_msk : Z; eoc2_msk : Z; eoc3_msk : Z;
  jeoc1_msk : Z; jeoc2_msk : Z; jeoc3_msk : Z;
  eocie_msk : Z
}.

Definition stm32f4_adc_common_regs (STM32F4_EOCIE : Z) := {|
  eoc1_msk := STM32F4_EOC_MASK1; eoc2_msk := STM32F4_EOC_MASK2;
  eoc3_msk := STM32F4_EOC_MASK3;
  jeoc1_msk := STM32F4_JEOC_MASK1; jeoc2_msk := STM32F4_JEOC_MASK2;
  jeoc3_msk := STM32F4_JEOC_MASK3;
  eocie_msk := STM32F4_EOCIE |}.

(** [eoc3_msk] and [jeoc3_msk] are not initialised: they are zero. *)
Definition stm32h7_adc_common_regs (STM32H7_EOCIE : Z) := {|
  eoc1_msk := STM32H7_EOC_MASK1; eoc2_msk := STM32H7_EOC_MASK2;
  eoc3_msk := 0;
  jeoc1_msk := STM32H7_JEOC_MASK1; jeoc2_msk := STM32H7_JEOC_MASK2;
  jeoc3_msk := 0;
  eocie_msk := STM32H7_EOCIE |}.

(** ** Interrupt demultiplexer *)

(** [stm32_adc_eoc_enabled priv adc]: [ier] is the value read from the
    interrupt enable register of instance [adc]. *)
Definition stm32_adc_eoc_enabled (regs : stm32_adc_common_regs)
    (ier : nat -> Z) (adc : nat) : Z :=
  Z.land (ier adc) (eocie_msk regs).

(** [stm32_adc_irq_handler]: [status] is the single read of the common
    status register, [ier adc] the enable register of instance [adc].  The
    result is the list of hardware irq numbers of the domain passed to
    [generic_handle_irq], in call order. *)
Definition stm32_adc_irq_handler (regs : stm32_adc_common_regs)
    (status : Z) (ier : nat -> Z) : list nat :=
  (if ztrue (Z.land status (eoc1_msk regs)) &&
      ztrue (stm32_adc_eoc_enabled regs ier 0) then [0%nat] else []) ++
  (if ztrue (Z.land status (eoc2_msk regs)) &&
      ztrue (stm32_adc_eoc_enabled regs ier 1) then [1%nat] else []) ++
  (if ztrue (Z.land status (eoc3_msk regs)) &&
      ztrue (stm32_adc_eoc_enabled regs ier 2) then [2%nat] else []) ++
  (if ztrue (Z.land status (jeoc1_msk regs)) then [3%nat] else []) ++
  (if ztrue (Z.land status (jeoc2_msk regs)) then [4%nat] else []) ++
  (if ztrue (Z.land status (jeoc3_msk regs)) then [5%nat] else []).

(** Per-instance view of the masks used by the handler. *)
Definition eoc_msk (regs : stm32_adc_common_regs) (adc : nat) : Z :=
  match adc with
  | 0%nat => eoc1_msk regs | 1%nat => eoc2_msk regs | 2%nat => eoc3_msk regs
  | _ => 0
  end.

Definition jeoc_msk (regs : stm32_adc_common_regs) (adc : nat) : Z :=
  match adc with
  | 0%nat => jeoc1_msk regs | 1%nat => jeoc2_msk regs | 2%nat => jeoc3_msk regs
  | _ => 0
  end.

(** ** Clock selection *)

Inductive clk_id := Aclk | Bclk.

(** What a successful [clk_sel] leaves behind: the clock it used, the
    table entry it chose ([ckmode], [presc], [div]; for stm32f4 [presc] is
    the ADCPRE index and [ckmode] is 0), [priv->common.rate] and the
    rewritten common control register. *)
Record clk_plan := {
  pl_src : clk_id;
  pl_ckmode : Z;
  pl_presc : Z;
  pl_div : Z;
  pl_rate : Z;
  pl_ccr : Z
}.

(** A clock is [None] when [priv->aclk] / [priv->bclk] is NULL, otherwise
    [Some r] where [r] is what [clk_get_rate] reports.  The result is
    [inl ret] with a negative errno, or [inr plan]. *)
Definition clk_result := (Z + clk_plan)%type.

Definition stm32f4_pclk_div : list Z := [2; 4; 6; 8].

(** The [for] loop with its [break]: index of the first divider with
    [rate / div <= max_clk_rate], or the array size. *)
Fixpoint stm32f4_pclk_scan (rate max_clk_rate : Z) (divs : list Z) (i : nat)
  : nat :=
  match divs with
  | [] => i
  | d :: divs' =>
      if rate / d <=? max_clk_rate then i
      else stm32f4_pclk_scan rate max_clk_rate divs' (S i)
  end.

Definition stm32f4_adc_clk_sel (aclk bclk : option Z) (max_clk_rate : Z)
    (ccr : Z) : clk_result :=
  match aclk with
  | None => inl (- ENOENT)
  | Some rate =>
      if rate =? 0 then inl (- EINVAL) else
      let i := stm32f4_pclk_scan rate max_clk_rate stm32f4_pclk_div 0 in
      if (length stm32f4_pclk_div <=? i)%nat then inl (- EINVAL) else
      let div := nth i stm32f4_pclk_div 0 in
      let val := Z.land ccr (Z.lnot STM32F4_ADC_ADCPRE_MASK) in
      let val := Z.lor val (Z.shiftl (Z.of_nat i) STM32F4_ADC_ADCPRE_SHIFT) in
      inr {| pl_src := Aclk; pl_ckmode := 0; pl_presc := Z.of_nat i;
             pl_div := div; pl_rate := rate / div; pl_ccr := val |}
  end.

(** [struct stm32h7_adc_ck_spec] and [stm32h7_adc_ckmodes_spec]. *)
Record stm32h7_adc_ck_spec := { ckmode : Z; presc : Z; div : Z }.

Definition ck (c p d : Z) : stm32h7_adc_ck_spec :=
  {| ckmode := c; presc := p; div := d |}.

Definition stm32h7_adc_ckmodes_spec : list stm32h7_adc_ck_spec :=
  [ (* 00: CK_ADC[1..3]: Asynchronous clock modes *)
    ck 0 0 1; ck 0 1 2; ck 0 2 4; ck 0 3 6; ck 0 4 8; ck 0 5 10;
    ck 0 6 12; ck 0 7 16; ck 0 8 32; ck 0 9 64; ck 0 10 128; ck 0 11 256;
    (* HCLK used: Synchronous clock modes (1, 2 or 4 prescaler) *)
    ck 1 0 1; ck 2 0 2; ck 3 0 4 ].

(** One of the two [for] loops of [stm32h7_adc_clk_sel]: entries with
    [skip ckmode] are passed over ([continue]), the first remaining entry
    with [rate / div <= max_clk_rate] is taken ([goto out]). *)
Fixpoint stm32h7_ck_scan (skip : Z -> bool) (rate max_clk_rate : Z)
    (l : list stm32h7_adc_ck_spec) : option stm32h7_adc_ck_spec :=
  match l with
  | [] => None
  | s :: l' =>
      if skip (ckmode s) then stm32h7_ck_scan skip rate max_clk_rate l'
      else if rate / div s <=? max_clk_rate then Some s
      else stm32h7_ck_scan skip rate max_clk_rate l'
  end.

(** Asynchronous loop: [if (ckmode) continue;]. *)
Definition skip_sync (m : Z) : bool := ztrue m.
(** Synchronous loop: [if (!ckmode) continue;]. *)
Definition skip_async (m : Z) : bool := negb (ztrue m).

(** The code after the [out:] label. *)
Definition stm32h7_adc_clk_out (src : clk_id) (rate : Z)
    (s : stm32h7_adc_ck_spec) (ccr : Z) : clk_plan :=
  let val := Z.land ccr (Z.lnot (Z.lor STM32H7_CKMODE_MASK STM32H7_PRESC_MASK)) in
  let val := Z.lor val (Z.shiftl (ckmode s) STM32H7_CKMODE_SHIFT) in
  let val := Z.lor val (Z.shiftl (presc s) STM32H7_PRESC_SHIFT) in
  {| pl_src := src; pl_ckmode := ckmode s; pl_presc := presc s;
     pl_div := div s; pl_rate := rate / div s; pl_ccr := val |}.

(** The synchronous part, reached when there is no 'adc' clock or when no
    asynchronous entry fits. *)
Definition stm32h7_adc_clk_sync (brate max_clk_rate ccr : Z) : clk_result :=
  if brate =? 0 then inl (- EINVAL) else
  match stm32h7_ck_scan skip_async brate max_clk_rate stm32h7_adc_ckmodes_spec with
  | Some s => inr (stm32h7_adc_clk_out Bclk brate s ccr)
  | None => inl (- EINVAL)
  end.

Definition stm32h7_adc_clk_sel (aclk bclk : option Z) (max_clk_rate : Z)
    (ccr : Z) : clk_result :=
  match bclk with
  | None => inl (- ENOENT)
  | Some brate =>
      match aclk with
      | Some arate =>
          if arate =? 0 then inl (- EINVAL) else
          match stm32h7_ck_scan skip_sync arate max_clk_rate
                  stm32h7_adc_ckmodes_spec with
          | Some s => inr (stm32h7_adc_clk_out Aclk arate s ccr)
          | None => stm32h7_adc_clk_sync brate max_clk_rate ccr
          end
      | None => stm32h7_adc_clk_sync brate max_clk_rate ccr
      end
  end.

(** ** Compatible configuration data: [struct stm32_adc_priv_cfg] *)

Inductive clk_sel_kind := CLK_SEL_F4 | CLK_SEL_H7.

Record stm32_adc_priv_cfg := {
  clk_sel : clk_sel_kind;
  max_clk_rate_hz : Z;
  has_syscfg_clr : bool
}.

Definition stm32f4_adc_priv_cfg :=
  {| clk_sel := CLK_SEL_F4; max_clk_rate_hz := 36000000; has_syscfg_clr := false |}.
Definition stm32h7_adc_priv_cfg :=
  {| clk_sel := CLK_SEL_H7; max_clk_rate_hz := 36000000; has_syscfg_clr := false |}.
Definition stm32mp1_adc_priv_cfg :=
  {| clk_sel := CLK_SEL_H7; max_clk_rate_hz := 40000000; has_syscfg_clr := true |}.

(** [priv->cfg->clk_sel(pdev, priv)] *)
Definition run_clk_sel (k : clk_sel_kind) : option Z -> option Z -> Z -> Z -> clk_result :=
  match k with
  | CLK_SEL_F4 => stm32f4_adc_clk_sel
  | CLK_SEL_H7 => stm32h7_adc_clk_sel
  end.

(** [priv->max_clk_rate] as set in [stm32_adc_probe]; [max_rate] is the
    "st,max-clk-rate-hz" property when it could be read. *)
Definition stm32_adc_max_clk_rate (cfg : stm32_adc_priv_cfg)
    (max_rate : option Z) : Z :=
  match max_rate with
  | Some m => Z.min m (max_clk_rate_hz cfg)
  | None => max_clk_rate_hz cfg
  end.

(** The dividers a clock selection scans for the source it ends up using. *)
Definition scanned_divs (k : clk_sel_kind) (src : clk_id) : list Z :=
  match k, src with
  | CLK_SEL_F4, _ => stm32f4_pclk_div
  | CLK_SEL_H7, Aclk =>
      map div (filter (fun s => negb (skip_sync (ckmode s))) stm32h7_adc_ckmodes_spec)
  | CLK_SEL_H7, Bclk =>
      map div (filter (fun s => negb (skip_async (ckmode s))) stm32h7_adc_ckmodes_spec)
  end.

Definition clk_of (src : clk_id) (aclk bclk : option Z) : option Z :=
  match src with Aclk => aclk | Bclk => bclk end.

Example scanned_divs_h7_async :
  scanned_divs CLK_SEL_H7 Aclk = [1; 2; 4; 6; 8; 10; 12; 16; 32; 64; 128; 256].
Proof. reflexivity. Qed.
Example scanned_divs_h7_sync : scanned_divs CLK_SEL_H7 Bclk = [1; 2; 4].
Proof. reflexivity. Qed.
Example h7_80M_36M :
  stm32h7_adc_clk_sel (Some 80000000) (Some 200000000) 36000000 0
  = inr {| pl_src := Aclk; pl_ckmode := 0; pl_presc := 2; pl_div := 4;
           pl_rate := 20000000; pl_ccr := Z.shiftl 2 18 |}.
Proof. vm_compute. reflexivity. Qed.
Example h7_bus_200M_36M :
  stm32h7_adc_clk_sel None (Some 200000000) 36000000 0 = inl (- EINVAL).
Proof. reflexivity. Qed.

(** ** Power sequencer *)

Inductive reg_id := Vref | Vdda | Vdd.
Inductive cell_id := VBOOSTER | VBOOSTER_CLR | ANASWVDD | ANASWVDD_CLR.

(** [struct stm32_adc_syscfg] minus the regmap handle: a cell whose regmap
    lookup failed is [None] in [stm32_adc_priv]. *)
Record stm32_adc_syscfg := { sc_reg : Z; sc_mask : Z }.

(** The parts of [struct stm32_adc_priv] the sequencer reads.
    [vdda_ok] / [vdd_ok] say the optional regulators were found
    (not [IS_ERR]); clocks are as in [clk_sel]. *)
Record stm32_adc_priv := {
  vdda_ok : bool;
  vdd_ok : bool;
  aclk : option Z;
  bclk : option Z;
  vbooster : option stm32_adc_syscfg;
  vbooster_clr : option stm32_adc_syscfg;
  anaswvdd : option stm32_adc_syscfg;
  anaswvdd_clr : option stm32_adc_syscfg
}.

(** Results the providers return: [regulator_enable], [regulator_get_voltage],
    [clk_prepare_enable], and the regmap accessors of each syscfg cell. *)
Record env := {
  reg_enable_ret : reg_id -> Z;
  reg_voltage : reg_id -> Z;
  clk_enable_ret : clk_id -> Z;
  regmap_ret : cell_id -> Z
}.

(** Calls made to the providers, with the value they returned. *)
Inductive event :=
| RegEnable (r : reg_id) (ret : Z)
| RegDisable (r : reg_id)
| RegGetVoltage (r : reg_id) (ret : Z)
| ClkEnable (c : clk_id) (ret : Z)
| ClkDisable (c : clk_id)
| RegmapUpdateBits (c : cell_id) (reg mask val : Z)
| RegmapWrite (c : cell_id) (reg val : Z)
| Usleep.

(** Hardware and driver state: the call trace, the common control register
    and [priv->ccr_bak]. *)
Record hw_state := { trace : list event; ccr_reg : Z; ccr_bak : Z }.

Definition M (A : Type) := env -> hw_state -> A * hw_state.

Definition ret {A} (a : A) : M A := fun _ s => (a, s).
Definition bind {A B} (m : M A) (f : A -> M B) : M B :=
  fun e s => let '(a, s') := m e s in f a e s'.

Notation "x <- m ;; k" := (bind m (fun x => k))
  (at level 61, m at next level, right associativity).
Notation "m ;; k" := (bind m (fun _ : unit => k))
  (at level 61, right associativity).

Definition emit (ev : event) : M unit :=
  fun _ s => (tt, {| trace := trace s ++ [ev]; ccr_reg := ccr_reg s;
                      ccr_bak := ccr_bak s |}).
Definition skip : M unit := ret tt.

Definition regulator_enable (r : reg_id) : M Z :=
  fun e => (emit (RegEnable r (reg_enable_ret e r));; ret (reg_enable_ret e r)) e.
Definition regulator_disable (r : reg_id) : M unit := emit (RegDisable r).
Definition regulator_get_voltage (r : reg_id) : M Z :=
  fun e => (emit (RegGetVoltage r (reg_voltage e r));; ret (reg_voltage e r)) e.
Definition clk_prepare_enable (c : clk_id) : M Z :=
  fun e => (emit (ClkEnable c (clk_enable_ret e c));; ret (clk_enable_ret e c)) e.
Definition clk_disable_unprepare (c : clk_id) : M unit := emit (ClkDisable c).
Definition regmap_update_bits (c : cell_id) (sc : stm32_adc_syscfg) (val : Z) : M Z :=
  fun e => (emit (RegmapUpdateBits c (sc_reg sc) (sc_mask sc) val);;
            ret (regmap_ret e c)) e.
Definition regmap_write (c : cell_id) (reg val : Z) : M Z :=
  fun e => (emit (RegmapWrite c reg val);; ret (regmap_ret e c)) e.
Definition usleep_range : M unit := emit Usleep.
Definition readl_ccr : M Z := fun _ s => (ccr_reg s, s).
Definition writel_ccr (v : Z) : M unit :=
  fun _ s => (tt, {| trace := trace s; ccr_reg := v; ccr_bak := ccr_bak s |}).
Definition set_ccr_bak (v : Z) : M unit :=
  fun _ s => (tt, {| trace := trace s; ccr_reg := ccr_reg s; ccr_bak := v |}).
Definition get_ccr_bak : M Z := fun _ s => (ccr_bak s, s).

(** *** [stm32_adc_switches_supply_en] *)

(** Booster / ANASWVDD settings chosen from the measured voltages (µV):
    the [if (vdda > 2700000) ... else ...] block.  Returns
    [(anaswvdd, en_booster)]. *)
Definition stm32_adc_switches_setting (vdda vdd : Z)
    (vbooster_mask anaswvdd_mask : Z) : Z * Z :=
  if 2700000 <? vdda then (0, 0)
  else if vdd <? 2700000 then (0, vbooster_mask)
  else (anaswvdd_mask, 0).

(** [!IS_ERR(priv->vdd) && !IS_ERR(priv->anaswvdd.regmap)] *)
Definition vdd_used (p : stm32_adc_priv) : bool :=
  vdd_ok p && match anaswvdd p with Some _ => true | None => false end.

(** [priv->anaswvdd.mask]; zero (kzalloc) when the cell was not found. *)
Definition anaswvdd_mask (p : stm32_adc_priv) : Z :=
  match anaswvdd p with Some c => sc_mask c | None => 0 end.

(** Labels [vdda_dis], [vdd_dis], [booster_dis]. *)
Definition vdda_dis (r : Z) : M Z := regulator_disable Vdda;; ret r.

Definition vdd_dis (p : stm32_adc_priv) (r : Z) : M Z :=
  (if vdd_used p then regulator_disable Vdd else skip);; vdda_dis r.

Definition booster_dis (p : stm32_adc_priv) (vb : stm32_adc_syscfg) (r : Z)
  : M Z :=
  (match vbooster_clr p with
   | None => _ <- regmap_update_bits VBOOSTER vb 0;; skip
   | Some c => _ <- regmap_write VBOOSTER_CLR (sc_reg c) (sc_mask c);; skip
   end);;
  vdd_dis p r.

(** "direct write value (or use clear register)":
    [if (v || IS_ERR(clr.regmap)) regmap_update_bits(set, v) else
     regmap_write(clr, clr.mask)]. *)
Definition syscfg_apply (cset ccl : cell_id) (set : stm32_adc_syscfg)
    (clr : option stm32_adc_syscfg) (v : Z) : M Z :=
  match clr with
  | None => regmap_update_bits cset set v
  | Some c =>
      if ztrue v then regmap_update_bits cset set v
      else regmap_write ccl (sc_reg c) (sc_mask c)
  end.

(** From the settings decision to the final [return ret]. *)
Definition stm32_adc_switches_set (p : stm32_adc_priv) (vb : stm32_adc_syscfg)
    (vdda vdd : Z) : M Z :=
  let '(anasw, en_booster) :=
    stm32_adc_switches_setting vdda vdd (sc_mask vb) (anaswvdd_mask p) in
  r <- syscfg_apply VBOOSTER VBOOSTER_CLR vb (vbooster_clr p) en_booster;;
  if ztrue r then vdd_dis p r else
  (if ztrue en_booster then usleep_range else skip);;
  match anaswvdd p with
  | None => ret r
  | Some a =>
      r' <- syscfg_apply ANASWVDD ANASWVDD_CLR a (anaswvdd_clr p) anasw;;
      if ztrue r' then booster_dis p vb r' else ret r'
  end.

Definition stm32_adc_switches_supply_en (p : stm32_adc_priv) : M Z :=
  match vdda_ok p, vbooster p with
  | true, Some vb =>
      r <- regulator_enable Vdda;;
      if r <? 0 then ret r else
      r <- regulator_get_voltage Vdda;;
      if r <? 0 then vdda_dis r else
      let vdda := r in
      if vdd_used p then
        r <- regulator_enable Vdd;;
        if r <? 0 then vdda_dis r else
        r <- regulator_get_voltage Vdd;;
        if r <? 0 then vdd_dis p r else
        stm32_adc_switches_set p vb vdda r
      else stm32_adc_switches_set p vb vdda 0
  | _, _ => ret 0
  end.

(** *** [stm32_adc_switches_supply_dis] *)

Definition syscfg_clear (cset ccl : cell_id) (set : stm32_adc_syscfg)
    (clr : option stm32_adc_syscfg) : M unit :=
  match clr with
  | None => _ <- regmap_update_bits cset set 0;; skip
  | Some c => _ <- regmap_write ccl (sc_reg c) (sc_mask c);; skip
  end.

Definition stm32_adc_switches_supply_dis (p : stm32_adc_priv) : M unit :=
  match vdda_ok p, vbooster p with
  | true, Some vb =>
      (match anaswvdd p with
       | Some a => syscfg_clear ANASWVDD ANASWVDD_CLR a (anaswvdd_clr p)
       | None => skip
       end);;
      syscfg_clear VBOOSTER VBOOSTER_CLR vb (vbooster_clr p);;
      (if vdd_used p then regulator_disable Vdd else skip);;
      regulator_disable Vdda
  | _, _ => skip
  end.

(** *** [stm32_adc_core_hw_start] and [stm32_adc_core_hw_stop] *)

Definition err_switches_disable (p : stm32_adc_priv) (r : Z) : M Z :=
  stm32_adc_switches_supply_dis p;; ret r.

Definition err_regulator_disable (p : stm32_adc_priv) (r : Z) : M Z :=
  regulator_disable Vref;; err_switches_disable p r.

Definition err_bclk_disable (p : stm32_adc_priv) (r : Z) : M Z :=
  (match bclk p with Some _ => clk_disable_unprepare Bclk | None => skip end);;
  err_regulator_disable p r.

Definition stm32_adc_core_hw_start (p : stm32_adc_priv) : M Z :=
  r <- stm32_adc_switches_supply_en p;;
  if r <? 0 then ret r else
  r <- regulator_enable Vref;;
  if r <? 0 then err_switches_disable p r else
  let restore := (b <- get_ccr_bak;; writel_ccr b;; ret 0) in
  let aclk_step :=
    match aclk p with
    | Some _ =>
        r <- clk_prepare_enable Aclk;;
        if r <? 0 then err_bclk_disable p r else restore
    | None => restore
    end in
  match bclk p with
  | Some _ =>
      r <- clk_prepare_enable Bclk;;
      if r <? 0 then err_regulator_disable p r else aclk_step
  | None => aclk_step
  end.

Definition stm32_adc_core_hw_stop (p : stm32_adc_priv) : M unit :=
  (* Backup CCR that may be lost (depends on power state to achieve) *)
  v <- readl_ccr;;
  set_ccr_bak v;;
  (match aclk p with Some _ => clk_disable_unprepare Aclk | None => skip end);;
  (match bclk p with Some _ => clk_disable_unprepare Bclk | None => skip end);;
  regulator_disable Vref;;
  stm32_adc_switches_supply_dis p.

(** ** Interrupt lines: [stm32_adc_irq_probe] and [stm32_adc_irq_remove] *)

Definition ENXIO : Z := 6.
Definition ENOMEM : Z := 12.
Definition ENODEV : Z := 19.

Definition STM32_ADC_MAX_ADCS : nat := 3.

(** The first loop of [stm32_adc_irq_probe]: [platform_get_irq i] for
    [i = first, ...]; the result is the value returned by the loop (0 when
    it runs to completion) and the values stored in [priv->irq]. *)
Fixpoint stm32_adc_irq_get (platform_get_irq : nat -> Z) (i n : nat) : Z * list Z :=
  match n with
  | O => (0, [])
  | S n' =>
      let irq := platform_get_irq i in
      if (irq <? 0) && negb (negb (Nat.eqb i 0) && (irq =? - ENXIO)) then (irq, [irq])
      else let '(r, l) := stm32_adc_irq_get platform_get_irq (S i) n' in (r, irq :: l)
  end.

(** The lines [irq_set_chained_handler] is called on (second loop). *)
Definition stm32_adc_irq_lines (irqs : list Z) : list Z :=
  filter (fun irq => 0 <=? irq) irqs.

(** [stm32_adc_irq_probe]: [domain_ok] tells whether [irq_domain_add_simple]
    returned a domain.  Result: return value, [priv->irq], chained lines. *)
Definition stm32_adc_irq_probe (platform_get_irq : nat -> Z) (domain_ok : bool)
  : Z * list Z * list Z :=
  let '(r, irqs) := stm32_adc_irq_get platform_get_irq 0 STM32_ADC_MAX_ADCS in
  if ztrue r then (r, irqs, [])
  else if domain_ok then (0, irqs, stm32_adc_irq_lines irqs)
  else (- ENOMEM, irqs, []).

(** [stm32_adc_irq_remove]: the hardware irqs whose mapping is disposed, and
    the lines whose chained handler is reset. *)
Definition stm32_adc_irq_remove (irqs : list Z) : list nat * list Z :=
  (seq 0 (STM32_ADC_MAX_ADCS * 2), stm32_adc_irq_lines irqs).

(** ** Syscfg cells: [stm32_adc_get_syscfg_cell], [stm32_adc_syscfg_probe] *)

(** What the device tree and the syscon framework answer for one cell
    property: [dt_lookup] is 0 when [syscon_regmap_lookup_by_phandle]
    returns a regmap, otherwise the errno of its [ERR_PTR]; the two
    [of_property_read_u32_index] calls return [dt_reg_ret] / [dt_mask_ret]
    and on success store [dt_reg] / [dt_mask]. *)
Record syscfg_dt := {
  dt_lookup : Z;
  dt_reg_ret : Z; dt_reg : Z;
  dt_mask_ret : Z; dt_mask : Z
}.

(** [reg] and [mask] keep their zero-initialised value when not read. *)
Definition stm32_adc_get_syscfg_cell (d : syscfg_dt) : Z * option stm32_adc_syscfg :=
  if ztrue (dt_lookup d) then
    ((if dt_lookup d =? - ENODEV then 0 else dt_lookup d), None)
  else if ztrue (dt_reg_ret d) then (dt_reg_ret d, Some {| sc_reg := 0; sc_mask := 0 |})
  else (dt_mask_ret d,
        Some {| sc_reg := dt_reg d;
                sc_mask := if ztrue (dt_mask_ret d) then 0 else dt_mask d |}).

Definition with_syscfg (p : stm32_adc_priv)
    (vb vbc asw aswc : option stm32_adc_syscfg) : stm32_adc_priv :=
  {| vdda_ok := vdda_ok p; vdd_ok := vdd_ok p; aclk := aclk p; bclk := bclk p;
     vbooster := vb; vbooster_clr := vbc; anaswvdd := asw; anaswvdd_clr := aswc |}.

Definition is_some {A} (o : option A) : bool :=
  match o with Some _ => true | None => false end.

Definition stm32_adc_syscfg_probe (cfg : stm32_adc_priv_cfg)
    (dvb dvbc dasw daswc : syscfg_dt) (p : stm32_adc_priv) : Z * stm32_adc_priv :=
  let '(r, vb) := stm32_adc_get_syscfg_cell dvb in
  if ztrue r then (r, with_syscfg p vb (vbooster_clr p) (anaswvdd p) (anaswvdd_clr p)) else
  let '(r, vbc) := stm32_adc_get_syscfg_cell dvbc in
  if ztrue r then (r, with_syscfg p vb vbc (anaswvdd p) (anaswvdd_clr p)) else
  let '(r, asw) := stm32_adc_get_syscfg_cell dasw in
  if ztrue r then (r, with_syscfg p vb vbc asw (anaswvdd_clr p)) else
  let '(r, aswc) := stm32_adc_get_syscfg_cell daswc in
  let p' := with_syscfg p vb vbc asw aswc in
  if ztrue r then (r, p') else
  (* Sanity, check syscfg set/clear pairs are filled in *)
  if has_syscfg_clr cfg && ((is_some vb && negb (is_some vbc)) ||
                            (is_some asw && negb (is_some aswc)))
  then (- EINVAL, p')
  else (r, p').

(** ** Trigger validation: [stm32_adc_validate_device] *)

(** Devices are named by numbers; [children] lists the children of the
    trigger's parent, in the order [device_for_each_child] visits them. *)
Definition is_stm32_adc_child_dev (dev data : nat) : Z :=
  if Nat.eqb dev data then 1 else 0.

(** Stops at the first child for which [fn] returns non-zero, and returns
    that value. *)
Fixpoint device_for_each_child (children : list nat) (data : nat)
    (fn : nat -> nat -> Z) : Z :=
  match children with
  | [] => 0
  | c :: cs =>
      let r := fn c data in
      if ztrue r then r else device_for_each_child cs data fn
  end.

Definition stm32_adc_validate_device (trig_parent_children : list nat)
    (indio_parent : nat) : Z :=
  if ztrue (device_for_each_child trig_parent_children indio_parent
              is_stm32_adc_child_dev)
  then 0 else - EINVAL.

(** ** External triggers: [stm32_adc_triggers_probe] *)

(** An available child node: its "trigger-name" strings and what
    [of_irq_get(child, 0)] returns. *)
Record trig_child := { tc_names : list string; tc_irq : Z }.

(** What the trigger and irq frameworks return: whether
    [devm_iio_trigger_alloc] succeeds, [devm_iio_trigger_register] and
    [devm_request_irq]. *)
Record trig_env := {
  trig_alloc_ok : string -> bool;
  trig_register_ret : string -> Z;
  request_irq_ret : Z -> Z
}.

(** [of_property_match_string(child, "trigger-name", name) >= 0] *)
Definition trigger_name_match (c : trig_child) (name : string) : bool :=
  existsb (String.eqb name) (tc_names c).

(** [stm32_adc_trig_alloc_register]: 0 or the error of its [ERR_PTR]
    ([IS_ERR] is read as "non-zero": the registration returns 0 or a
    negative errno). *)
Definition stm32_adc_trig_alloc_register (te : trig_env) (name : string) : Z :=
  if trig_alloc_ok te name then trig_register_ret te name else - ENOMEM.

(** The state the probe leaves: [priv->common.extrig_list] (trigger info
    names, in list order) and the irqs passed to [disable_irq]. *)
Record trig_state := { extrig_list : list string; disabled_irqs : list Z }.

(** The inner [for_each_available_child_of_node] loop for one trigger. *)
Fixpoint stm32_adc_trig_children (te : trig_env) (name : string)
    (children : list trig_child) (st : trig_state) : Z * trig_state :=
  match children with
  | [] => (0, st)
  | c :: cs =>
      if negb (trigger_name_match c name) then stm32_adc_trig_children te name cs st
      else
      let r := stm32_adc_trig_alloc_register te name in
      if ztrue r then (r, st) else
      let st := {| extrig_list := extrig_list st ++ [name];
                   disabled_irqs := disabled_irqs st |} in
      let irq := tc_irq c in
      if irq <=? 0 then ((if ztrue irq then irq else - ENODEV), st) else
      let r := request_irq_ret te irq in
      if ztrue r then (r, st) else
      stm32_adc_trig_children te name cs
        {| extrig_list := extrig_list st; disabled_irqs := disabled_irqs st ++ [irq] |}
  end.

(** The outer loop over [priv->cfg->exti_trigs] (up to its empty entry). *)
Fixpoint stm32_adc_trig_infos (te : trig_env) (trinfo : list string)
    (children : list trig_child) (st : trig_state) : Z * trig_state :=
  match trinfo with
  | [] => (0, st)
  | name :: ts =>
      let '(r, st) := stm32_adc_trig_children te name children st in
      if ztrue r then (r, st) else stm32_adc_trig_infos te ts children st
  end.

Definition stm32_adc_triggers_probe (te : trig_env) (trinfo : list string)
    (children : list trig_child) : Z * trig_state :=
  stm32_adc_trig_infos te trinfo children {| extrig_list := []; disabled_irqs := [] |}.

Definition stm32f4_adc_exti_trigs : list string := ["exti11"; "exti15"]%string.
Definition stm32h7_adc_exti_trigs : list string := ["exti11"; "exti15"]%string.

(** ** [stm32_adc_probe], from the syscfg lookups on

    [p] is the private data after the regulator and clock lookups,
    [max_rate] the "st,max-clk-rate-hz" property, [populate_ret] what
    [of_platform_populate] returns.  The runtime PM calls do not touch the
    modelled state. *)
Definition stm32_adc_probe_seq (cfg : stm32_adc_priv_cfg)
    (dvb dvbc dasw daswc : syscfg_dt) (p : stm32_adc_priv) (max_rate : option Z)
    (platform_get_irq : nat -> Z) (domain_ok : bool)
    (te : trig_env) (trinfo : list string) (children : list trig_child)
    (populate_ret : Z) : M Z :=
  let '(r, p) := stm32_adc_syscfg_probe cfg dvb dvbc dasw daswc p in
  if ztrue r then ret r else
  r <- stm32_adc_core_hw_start p;;
  if ztrue r then ret r else
  v <- regulator_get_voltage Vref;;
  if v <? 0 then (stm32_adc_core_hw_stop p;; ret v) else
  ccr <- readl_ccr;;
  match run_clk_sel (clk_sel cfg) (aclk p) (bclk p)
          (stm32_adc_max_clk_rate cfg max_rate) ccr with
  | inl r => stm32_adc_core_hw_stop p;; ret r
  | inr pl =>
      writel_ccr (pl_ccr pl);;
      let '(r, _, _) := stm32_adc_irq_probe platform_get_irq domain_ok in
      if r <? 0 then (stm32_adc_core_hw_stop p;; ret r) else
      let '(r, _) := stm32_adc_triggers_probe te trinfo children in
      (* err_irq_remove: stm32_adc_irq_remove, then err_hw_stop *)
      if r <? 0 then (stm32_adc_core_hw_stop p;; ret r) else
      if populate_ret <? 0 then (stm32_adc_core_hw_stop p;; ret populate_ret) else
      ret 0
  end.

(** * Properties *)

(** ** Interrupt demultiplexer *)

Lemma ztrue_spec (v : Z) : ztrue v = true <-> v <> 0.
Proof. unfold ztrue; rewrite negb_true_iff, Z.eqb_neq; tauto. Qed.

Ltac split_ztrue :=
  repeat match goal with
         | |- context [ztrue ?x] =>
             let E := fresh "E" in destruct (ztrue x) eqn:E
         end.

(** Membership in the handler's output, line by line. *)
Lemma irq_handler_in (regs : stm32_adc_common_regs) (status : Z)
    (ier : nat -> Z) (n : nat) :
  In n (stm32_adc_irq_handler regs status ier) <->
  exists i, (i < 3)%nat /\
    ((n = i /\ ztrue (Z.land status (eoc_msk regs i)) = true /\
               ztrue (stm32_adc_eoc_enabled regs ier i) = true) \/
     (n = (3 + i)%nat /\ ztrue (Z.land status (jeoc_msk regs i)) = true)).
Proof.
  unfold stm32_adc_irq_handler; split.
  - rewrite !in_app_iff; split_ztrue; simpl;
      intros H; repeat destruct H as [H | H]; subst; try contradiction;
      first [ exists 0%nat; simpl; unfold stm32_adc_eoc_enabled in *;
              rewrite ?E, ?E0, ?E1, ?E2, ?E3, ?E4, ?E5, ?E6, ?E7;
              intuition (auto; lia)
            | exists 1%nat; simpl; unfold stm32_adc_eoc_enabled in *;
              rewrite ?E, ?E0, ?E1, ?E2, ?E3, ?E4, ?E5, ?E6, ?E7, ?E8;
              intuition (auto; lia)
            | exists 2%nat; simpl; unfold stm32_adc_eoc_enabled in *;
              rewrite ?E, ?E0, ?E1, ?E2, ?E3, ?E4, ?E5, ?E6, ?E7, ?E8;
              intuition (auto; lia) ].
  - intros (i & Hi & [(-> & H1 & H2) | (-> & H1)]);
      destruct i as [|[|[|i]]]; try lia; simpl in *;
      rewrite !in_app_iff; rewrite ?H1, ?H2; simpl; tauto.
Qed.

Lemma irq_handler_NoDup (regs : stm32_adc_common_regs) (status : Z)
    (ier : nat -> Z) :
  NoDup (stm32_adc_irq_handler regs status ier).
Proof.
  unfold stm32_adc_irq_handler; split_ztrue; simpl;
    repeat constructor; simpl; intuition lia.
Qed.

Lemma irq_handler_regular (regs : stm32_adc_common_regs) (status : Z)
    (ier : nat -> Z) (i : nat) :
  (i < 3)%nat ->
  (In i (stm32_adc_irq_handler regs status ier) <->
   Z.land status (eoc_msk regs i) <> 0 /\
   Z.land (ier i) (eocie_msk regs) <> 0).
Proof.
  intros Hi; rewrite irq_handler_in, <- !ztrue_spec; split.
  - intros (j & Hj & [(-> & H1 & H2) | (-> & _)]); [split; assumption | lia].
  - intros [H1 H2]; exists i; split; [exact Hi | left; auto].
Qed.

Lemma irq_handler_injected (regs : stm32_adc_common_regs) (status : Z)
    (ier : nat -> Z) (i : nat) :
  (i < 3)%nat ->
  (In (3 + i)%nat (stm32_adc_irq_handler regs status ier) <->
   Z.land status (jeoc_msk regs i) <> 0).
Proof.
  intros Hi; rewrite irq_handler_in, <- ztrue_spec; split.
  - intros (j & Hj & [(Hn & _) | (Hn & H1)]); [lia|].
    assert (j = i) by lia; subst; exact H1.
  - intros H; exists i; split; [exact Hi | right; auto].
Qed.

(** C1 (counterexample): the claimed numbering [2*i + kind] is not the
    domain's.  On stm32f4, the injected end of conversion of instance 1
    alone is delivered to hardware line 4, not 2*1+1, and the regular end
    of conversion of instance 1 is delivered to line 1, not 2*1+0. *)
Lemma C1_irq_line_numbering_cex :
  stm32_adc_irq_handler (stm32f4_adc_common_regs (BIT 5)) STM32F4_JEOC2
    (fun _ => 0) <> [(2 * 1 + 1)%nat] /\
  stm32_adc_irq_handler (stm32f4_adc_common_regs (BIT 5)) STM32F4_EOC2
    (fun _ => BIT 5) <> [(2 * 1 + 0)%nat].
Proof. split; vm_compute; discriminate. Qed.

(** C1 (amended): the regular event of instance [i] (i in 0..2) goes to
    hardware line [i] and its injected event to line [3 + i]; nothing else
    is delivered, each line at most once.  On stm32f4 and on stm32h7, a
    status word holding only the injected end-of-conversion flag of
    instance 1 (JEOC2, JEOS_SLV) yields exactly one delivery, to line
    [4], whatever the interrupt enable registers and enable mask. *)
Theorem C1_irq_line_numbering :
  (forall regs status ier n,
     In n (stm32_adc_irq_handler regs status ier) <->
     exists i, (i < 3)%nat /\
       ((n = i /\ Z.land status (eoc_msk regs i) <> 0 /\
                  Z.land (ier i) (eocie_msk regs) <> 0) \/
        (n = (3 + i)%nat /\ Z.land status (jeoc_msk regs i) <> 0))) /\
  (forall regs status ier, NoDup (stm32_adc_irq_handler regs status ier)) /\
  (forall eocie ier,
     stm32_adc_irq_handler (stm32f4_adc_common_regs eocie) STM32F4_JEOC2 ier
     = [4%nat]) /\
  (forall eocie ier,
     stm32_adc_irq_handler (stm32h7_adc_common_regs eocie) STM32H7_JEOS_SLV ier
     = [4%nat]).
Proof.
  split; [|split; [exact irq_handler_NoDup | split]].
  - intros regs status ier n; rewrite irq_handler_in.
    unfold stm32_adc_eoc_enabled; setoid_rewrite ztrue_spec; tauto.
  - intros eocie ier; reflexivity.
  - intros eocie ier; reflexivity.
Qed.

(** C2: in one dispatch, instance [i]'s regular line receives an event iff
    the status word meets [i]'s regular mask and [i]'s enable register
    meets the EOCIE mask; its injected line receives an event iff the
    status word meets [i]'s injected mask, with no enable gating; no line
    receives two events.  On stm32f4 a regular end of conversion of
    instance 0 with its enable bit clear yields no delivery. *)
Theorem C2_irq_dispatch_gating (regs : stm32_adc_common_regs) (status : Z)
    (ier : nat -> Z) (i : nat) (Hi : (i < 3)%nat) :
  (In i (stm32_adc_irq_handler regs status ier) <->
   Z.land status (eoc_msk regs i) <> 0 /\
   Z.land (ier i) (eocie_msk regs) <> 0) /\
  (In (3 + i)%nat (stm32_adc_irq_handler regs status ier) <->
   Z.land status (jeoc_msk regs i) <> 0) /\
  NoDup (stm32_adc_irq_handler regs status ier) /\
  (forall eocie ier0,
     Z.land (ier0 0%nat) eocie = 0 ->
     stm32_adc_irq_handler (stm32f4_adc_common_regs eocie) STM32F4_EOC1 ier0
     = []).
Proof.
  split; [now apply irq_handler_regular|].
  split; [now apply irq_handler_injected|].
  split; [apply irq_handler_NoDup|].
  intros eocie ier0 H0; unfold stm32_adc_irq_handler, stm32_adc_eoc_enabled;
    simpl; rewrite H0; reflexivity.
Qed.

Lemma C2_irq_dispatch_gating_witness :
  (1 < 3)%nat /\
  stm32_adc_irq_handler (stm32h7_adc_common_regs (BIT 2))
    (Z.lor STM32H7_EOC_SLV STM32H7_JEOS_SLV) (fun _ => BIT 2) = [1%nat; 4%nat] /\
  In 1%nat (stm32_adc_irq_handler (stm32h7_adc_common_regs (BIT 2))
              (Z.lor STM32H7_EOC_SLV STM32H7_JEOS_SLV) (fun _ => BIT 2)).
Proof.
  split; [lia|]. split; [vm_compute; reflexivity|].
  apply (proj2 (proj1 (C2_irq_dispatch_gating (stm32h7_adc_common_regs (BIT 2))
    (Z.lor STM32H7_EOC_SLV STM32H7_JEOS_SLV) (fun _ => BIT 2) 1 ltac:(lia)))).
  split; vm_compute; discriminate.
Defined.

(** ** Clock selection *)

(** Case split on every comparison the selection performs. *)
Ltac split_ifs_in H :=
  repeat match type of H with
         | context [if ?c then _ else _] =>
             let E := fresh "E" in destruct c eqn:E
         end.

Ltac leb_facts :=
  repeat match goal with
         | H : (_ <=? _) = true |- _ => apply Z.leb_le in H
         | H : (_ <=? _) = false |- _ => apply Z.leb_gt in H
         | H : (_ =? _) = false |- _ => apply Z.eqb_neq in H
         end.

(** Goal left by a successful selection: the chosen divider is in the
    scanned list, fits, and every smaller divider of the list does not. *)
Ltac first_fit :=
  repeat split; simpl; try tauto; try lia;
  intros d Hd Hlt; simpl in Hd; repeat destruct Hd as [<- | Hd];
  try contradiction; lia.

(** Properties of a plan returned by either selection routine. *)
Lemma clk_sel_plan_ok (k : clk_sel_kind) (aclk bclk : option Z)
    (max_clk_rate ccr : Z) (pl : clk_plan) :
  run_clk_sel k aclk bclk max_clk_rate ccr = inr pl ->
  exists rate, clk_of (pl_src pl) aclk bclk = Some rate /\
    In (pl_div pl) (scanned_divs k (pl_src pl)) /\
    rate / pl_div pl <= max_clk_rate /\
    pl_rate pl = rate / pl_div pl /\
    (forall d, In d (scanned_divs k (pl_src pl)) -> d < pl_div pl ->
               max_clk_rate < rate / d).
Proof.
  destruct k; simpl; intros H.
  - unfold stm32f4_adc_clk_sel in H; destruct aclk as [rate|]; [|discriminate].
    cbn in H; split_ifs_in H; try discriminate;
      injection H as <-; exists rate; leb_facts; first_fit.
  - unfold stm32h7_adc_clk_sel, stm32h7_adc_clk_sync in H;
      destruct bclk as [brate|]; [|discriminate];
      destruct aclk as [arate|]; cbn in H; split_ifs_in H; try discriminate;
      injection H as <-; leb_facts;
      first [ exists arate; first_fit | exists brate; first_fit ].
Qed.

(** C3: whenever a clock selection (stm32f4 divider set {2,4,6,8}, or the
    stm32h7 asynchronous / synchronous tables) succeeds, the chosen divider
    [d] of the source it uses satisfies [rate / d <= max_clk_rate], no
    smaller divider of the scanned table does, the published rate
    [priv->common.rate] is [rate / d], and the same inputs give the same
    plan. *)
Theorem C3_clk_sel_first_fit (k : clk_sel_kind) (aclk bclk : option Z)
    (max_clk_rate ccr : Z) (pl : clk_plan)
    (H : run_clk_sel k aclk bclk max_clk_rate ccr = inr pl) :
  (exists rate, clk_of (pl_src pl) aclk bclk = Some rate /\
    In (pl_div pl) (scanned_divs k (pl_src pl)) /\
    rate / pl_div pl <= max_clk_rate /\
    pl_rate pl = rate / pl_div pl /\
    (forall d, In d (scanned_divs k (pl_src pl)) -> d < pl_div pl ->
               max_clk_rate < rate / d)) /\
  (forall r, run_clk_sel k aclk bclk max_clk_rate ccr = r -> r = inr pl).
Proof.
  split; [exact (clk_sel_plan_ok k aclk bclk max_clk_rate ccr pl H)|].
  intros r Hr; rewrite <- Hr; exact H.
Qed.

Lemma C3_clk_sel_first_fit_witness :
  run_clk_sel CLK_SEL_F4 (Some 84000000) None 36000000 0 =
    inr {| pl_src := Aclk; pl_ckmode := 0; pl_presc := 1; pl_div := 4;
           pl_rate := 21000000; pl_ccr := Z.shiftl 1 16 |} /\
  pl_div {| pl_src := Aclk; pl_ckmode := 0; pl_presc := 1; pl_div := 4;
            pl_rate := 21000000; pl_ccr := Z.shiftl 1 16 |} = 4.
Proof.
  assert (H : run_clk_sel CLK_SEL_F4 (Some 84000000) None 36000000 0 =
    inr {| pl_src := Aclk; pl_ckmode := 0; pl_presc := 1; pl_div := 4;
           pl_rate := 21000000; pl_ccr := Z.shiftl 1 16 |})
    by (vm_compute; reflexivity).
  split; [exact (proj2 (C3_clk_sel_first_fit _ _ _ _ _ _ H) _ eq_refl)|].
  reflexivity.
Defined.

(** C4: on stm32h7, a successful selection that uses the 'adc' clock took
    the first asynchronous entry (dividers 1, 2, 4, ..., 256) that fits;
    one that uses the bus clock happened only when there is no 'adc' clock
    or no asynchronous entry fits, and took the first fitting synchronous
    prescaler of {1, 2, 4}.  An 'adc' clock at 80 MHz with a 36 MHz bound
    gives the asynchronous plan with divider 4 and rate 20 MHz. *)
Theorem C4_h7_async_preferred (aclk bclk : option Z) (max_clk_rate ccr : Z)
    (pl : clk_plan)
    (H : stm32h7_adc_clk_sel aclk bclk max_clk_rate ccr = inr pl) :
  (pl_src pl = Aclk ->
   exists a, aclk = Some a /\ pl_ckmode pl = 0 /\
     In (pl_div pl) [1; 2; 4; 6; 8; 10; 12; 16; 32; 64; 128; 256] /\
     a / pl_div pl <= max_clk_rate /\ pl_rate pl = a / pl_div pl /\
     (forall d, In d [1; 2; 4; 6; 8; 10; 12; 16; 32; 64; 128; 256] ->
                d < pl_div pl -> max_clk_rate < a / d)) /\
  (pl_src pl = Bclk ->
   (forall a, aclk = Some a ->
      forall d, In d [1; 2; 4; 6; 8; 10; 12; 16; 32; 64; 128; 256] ->
                max_clk_rate < a / d) /\
   exists b, bclk = Some b /\ pl_ckmode pl <> 0 /\ In (pl_div pl) [1; 2; 4] /\
     b / pl_div pl <= max_clk_rate /\ pl_rate pl = b / pl_div pl /\
     (forall d, In d [1; 2; 4] -> d < pl_div pl -> max_clk_rate < b / d)) /\
  (forall b ccr', exists pl',
     stm32h7_adc_clk_sel (Some 80000000) (Some b) 36000000 ccr' = inr pl' /\
     pl_src pl' = Aclk /\ pl_ckmode pl' = 0 /\ pl_div pl' = 4 /\
     pl_rate pl' = 20000000).
Proof.
  split; [|split].
  - intros Hs.
    unfold stm32h7_adc_clk_sel, stm32h7_adc_clk_sync in H;
      destruct bclk as [brate|]; [|discriminate];
      destruct aclk as [arate|]; cbn in H; split_ifs_in H; try discriminate;
      injection H as <-; simpl in Hs; try discriminate; leb_facts;
      (exists arate; split; [reflexivity | first_fit]).
  - intros Hs; split.
    + intros a -> d Hd.
      unfold stm32h7_adc_clk_sel, stm32h7_adc_clk_sync in H;
        destruct bclk as [brate|]; [|discriminate];
        cbn in H; split_ifs_in H; try discriminate;
        injection H as <-; simpl in Hs; try discriminate; leb_facts;
        simpl in Hd; repeat destruct Hd as [<- | Hd]; try contradiction; lia.
    + unfold stm32h7_adc_clk_sel, stm32h7_adc_clk_sync in H;
        destruct bclk as [brate|]; [|discriminate];
        destruct aclk as [arate|]; cbn in H; split_ifs_in H; try discriminate;
        injection H as <-; simpl in Hs; try discriminate; leb_facts;
        (exists brate; split; [reflexivity | first_fit]).
  - intros b ccr'; eexists; split; [reflexivity|]; simpl; repeat split.
Qed.

Lemma C4_h7_async_preferred_witness :
  stm32h7_adc_clk_sel None (Some 64000000) 36000000 0 =
    inr (stm32h7_adc_clk_out Bclk 64000000 (ck 2 0 2) 0) /\
  (forall a, None = Some a ->
     forall d, In d [1; 2; 4; 6; 8; 10; 12; 16; 32; 64; 128; 256] ->
     36000000 < a / d).
Proof.
  assert (H : stm32h7_adc_clk_sel None (Some 64000000) 36000000 0 =
    inr (stm32h7_adc_clk_out Bclk 64000000 (ck 2 0 2) 0))
    by (vm_compute; reflexivity).
  split; [exact H|].
  exact (proj1 (proj1 (proj2 (C4_h7_async_preferred _ _ _ _ _ H)) eq_refl)).
Defined.

(** C8 (counterexample): a missing clock and a zero-rate clock do not give
    the same error (-ENOENT against -EINVAL, the latter being also the
    "no divider fits" error), and on stm32h7 a bus clock reporting zero
    does not make the selection fail when an asynchronous entry fits. *)
Lemma C8_no_clock_source_cex :
  stm32f4_adc_clk_sel None None 36000000 0 = inl (- ENOENT) /\
  stm32f4_adc_clk_sel (Some 0) None 36000000 0 = inl (- EINVAL) /\
  - ENOENT <> - EINVAL /\
  stm32f4_adc_clk_sel (Some 400000000) None 36000000 0 = inl (- EINVAL) /\
  (exists pl, stm32h7_adc_clk_sel (Some 80000000) (Some 0) 36000000 0 = inr pl).
Proof.
  split; [reflexivity|]. split; [reflexivity|]. split; [discriminate|].
  split; [reflexivity|]. eexists; reflexivity.
Qed.

(** A scan of the stm32h7 table finds nothing when no entry it looks at
    fits, and finds an entry when one does. *)
Lemma h7_ck_scan_none (skip : Z -> bool) (r m : Z) (l : list stm32h7_adc_ck_spec) :
  (forall s, In s l -> skip (ckmode s) = false -> m < r / div s) ->
  stm32h7_ck_scan skip r m l = None.
Proof.
  induction l as [|s l IH]; intros H; [reflexivity|]; cbn.
  destruct (skip (ckmode s)) eqn:S; [apply IH; intros; apply H; auto; now right|].
  destruct (r / div s <=? m) eqn:F;
    [apply Z.leb_le in F; specialize (H s (or_introl eq_refl) S); lia|].
  apply IH; intros; apply H; auto; now right.
Qed.

Lemma h7_ck_scan_some (skip : Z -> bool) (r m : Z) (l : list stm32h7_adc_ck_spec) :
  (exists s, In s l /\ skip (ckmode s) = false /\ r / div s <= m) ->
  exists s', stm32h7_ck_scan skip r m l = Some s'.
Proof.
  induction l as [|s l IH]; intros (s0 & Hin & Hs & Hf); [destruct Hin|]; cbn.
  destruct Hin as [<-|Hin].
  - rewrite Hs; apply Z.leb_le in Hf; rewrite Hf; eauto.
  - destruct (skip (ckmode s)); [apply IH; eauto|].
    destruct (r / div s <=? m); [eauto | apply IH; eauto].
Qed.

(** C8 (amended): an absent mandatory clock (stm32f4 'adc', stm32h7
    'bus') yields -ENOENT, and -ENOENT arises only then.  A zero rate
    yields -EINVAL, which is also the error when no divider fits: on
    stm32f4 for the 'adc' clock; on stm32h7 for a present 'adc' clock,
    and for the bus clock only when the synchronous fallback is reached
    (no 'adc' clock, or no asynchronous entry fits).  When an asynchronous
    entry fits, the selection succeeds with the 'adc' clock, and the same
    plan comes out whatever the bus clock rate. *)
Theorem C8_no_clock_source_errors :
  (forall bclk m ccr, stm32f4_adc_clk_sel None bclk m ccr = inl (- ENOENT)) /\
  (forall bclk m ccr, stm32f4_adc_clk_sel (Some 0) bclk m ccr = inl (- EINVAL)) /\
  (forall aclk m ccr, stm32h7_adc_clk_sel aclk None m ccr = inl (- ENOENT)) /\
  (forall k aclk bclk m ccr,
     run_clk_sel k aclk bclk m ccr = inl (- ENOENT) ->
     clk_of (match k with CLK_SEL_F4 => Aclk | CLK_SEL_H7 => Bclk end)
       aclk bclk = None) /\
  (forall b m ccr, stm32h7_adc_clk_sel (Some 0) (Some b) m ccr = inl (- EINVAL)) /\
  (forall m ccr, stm32h7_adc_clk_sel None (Some 0) m ccr = inl (- EINVAL)) /\
  (forall a m ccr, a <> 0 ->
     stm32h7_ck_scan skip_sync a m stm32h7_adc_ckmodes_spec = None ->
     stm32h7_adc_clk_sel (Some a) (Some 0) m ccr = inl (- EINVAL)) /\
  (forall a b m ccr s, a <> 0 ->
     stm32h7_ck_scan skip_sync a m stm32h7_adc_ckmodes_spec = Some s ->
     stm32h7_adc_clk_sel (Some a) (Some b) m ccr =
       inr (stm32h7_adc_clk_out Aclk a s ccr)) /\
  (forall a b b' m ccr, a <> 0 ->
     (exists s, In s stm32h7_adc_ckmodes_spec /\ ckmode s = 0 /\ a / div s <= m) ->
     exists pl, stm32h7_adc_clk_sel (Some a) (Some b) m ccr = inr pl /\
       pl_src pl = Aclk /\
       stm32h7_adc_clk_sel (Some a) (Some b') m ccr = inr pl) /\
  (forall r bclk m ccr, r <> 0 ->
     (forall d, In d stm32f4_pclk_div -> m < r / d) ->
     stm32f4_adc_clk_sel (Some r) bclk m ccr = inl (- EINVAL)) /\
  (forall aclk b m ccr,
     (forall a, aclk = Some a ->
        forall s, In s stm32h7_adc_ckmodes_spec -> ckmode s = 0 -> m < a / div s) ->
     (forall s, In s stm32h7_adc_ckmodes_spec -> ckmode s <> 0 -> m < b / div s) ->
     stm32h7_adc_clk_sel aclk (Some b) m ccr = inl (- EINVAL)).
Proof.
  split; [reflexivity|]. split; [reflexivity|]. split; [reflexivity|].
  split.
  { intros [|] aclk bclk m ccr H; simpl in *.
    - unfold stm32f4_adc_clk_sel in H; destruct aclk as [rate|]; [|reflexivity].
      cbn in H; split_ifs_in H; discriminate.
    - unfold stm32h7_adc_clk_sel, stm32h7_adc_clk_sync in H;
        destruct bclk as [brate|]; [|reflexivity].
      destruct aclk as [arate|]; cbn in H; split_ifs_in H; discriminate. }
  split; [reflexivity|]. split; [reflexivity|].
  split; [intros a m ccr Ha Hs|].
  { unfold stm32h7_adc_clk_sel; apply Z.eqb_neq in Ha; now rewrite Ha, Hs. }
  split; [intros a b m ccr s Ha Hs|].
  { unfold stm32h7_adc_clk_sel; apply Z.eqb_neq in Ha; now rewrite Ha, Hs. }
  split.
  { intros a b b' m ccr Ha Hex.
    destruct (h7_ck_scan_some skip_sync a m stm32h7_adc_ckmodes_spec) as [s Hs].
    { destruct Hex as (s & Hin & H0 & Hf); exists s; unfold skip_sync, ztrue;
        rewrite H0; repeat split; auto. }
    exists (stm32h7_adc_clk_out Aclk a s ccr).
    unfold stm32h7_adc_clk_sel; apply Z.eqb_neq in Ha; rewrite Ha, Hs.
    repeat split. }
  split.
  { intros r bclk m ccr Hr Hnf; unfold stm32f4_adc_clk_sel.
    apply Z.eqb_neq in Hr; rewrite Hr; cbn [stm32f4_pclk_div stm32f4_pclk_scan].
    assert (N : forall d, In d stm32f4_pclk_div -> (r / d <=? m) = false)
      by (intros d Hd; apply Z.leb_gt, Hnf, Hd).
    rewrite !N by (cbn; tauto); reflexivity. }
  intros aclk b m ccr Ha Hb.
  assert (Hsync : stm32h7_adc_clk_sync b m ccr = inl (- EINVAL)).
  { unfold stm32h7_adc_clk_sync; destruct (b =? 0); [reflexivity|].
    rewrite h7_ck_scan_none; [reflexivity|].
    intros s Hin Hs; apply Hb; [exact Hin|].
    unfold skip_async, ztrue in Hs; destruct (ckmode s =? 0) eqn:E;
      [discriminate | now apply Z.eqb_neq]. }
  unfold stm32h7_adc_clk_sel; destruct aclk as [a|]; [|exact Hsync].
  destruct (a =? 0); [reflexivity|].
  rewrite h7_ck_scan_none; [exact Hsync|].
  intros s Hin Hs; apply (Ha a eq_refl s Hin).
  unfold skip_sync, ztrue in Hs; destruct (ckmode s =? 0) eqn:E;
    [now apply Z.eqb_eq | discriminate].
Qed.

(** C9: the bound handed to the selection is
    [min(st,max-clk-rate-hz, datasheet maximum)] when the property is
    present and the datasheet maximum otherwise, so it never exceeds the
    datasheet maximum. *)
Theorem C9_max_clk_rate (cfg : stm32_adc_priv_cfg) (max_rate : option Z) :
  stm32_adc_max_clk_rate cfg max_rate =
    match max_rate with
    | Some m => Z.min m (max_clk_rate_hz cfg)
    | None => max_clk_rate_hz cfg
    end /\
  stm32_adc_max_clk_rate cfg max_rate <= max_clk_rate_hz cfg /\
  (forall m, m <= max_clk_rate_hz cfg -> stm32_adc_max_clk_rate cfg (Some m) = m).
Proof.
  unfold stm32_adc_max_clk_rate; split; [reflexivity|]; split.
  - destruct max_rate; lia.
  - intros m Hm; lia.
Qed.

(** C10: on stm32h7, a present 'adc' clock reporting zero makes the
    selection fail with a negative errno, whatever the bus clock and the
    bound: it never falls back to the synchronous table. *)
Theorem C10_h7_zero_adc_clock_fails (bclk : option Z) (m ccr : Z) :
  exists err, stm32h7_adc_clk_sel (Some 0) bclk m ccr = inl err /\ err < 0 /\
  (bclk <> None -> err = - EINVAL).
Proof.
  destruct bclk as [b|]; [exists (- EINVAL) | exists (- ENOENT)];
    unfold ENOENT, EINVAL; simpl; repeat split; try lia; congruence.
Qed.

(** ** Power sequencer *)

Definition s_empty : hw_state := {| trace := []; ccr_reg := 0; ccr_bak := 0 |}.

(** What a program returns and the calls it makes, from a blank state. *)
Definition result_of {A} (m : M A) (e : env) : A := fst (m e s_empty).
Definition events_of {A} (m : M A) (e : env) : list event :=
  trace (snd (m e s_empty)).

(** A program that neither reads nor writes the control register or its
    backup: it only appends calls to the trace, independently of the
    state it starts in. *)
Definition trace_only {A} (m : M A) : Prop :=
  forall e s, m e s =
    (result_of m e, {| trace := trace s ++ events_of m e;
                       ccr_reg := ccr_reg s; ccr_bak := ccr_bak s |}).

Lemma ret_trace_only {A} (a : A) : trace_only (ret a).
Proof. intros e [t c b]; unfold ret, result_of, events_of; simpl; now rewrite app_nil_r. Qed.

Lemma emit_trace_only (ev : event) : trace_only (emit ev).
Proof. intros e [t c b]; reflexivity. Qed.

Lemma bind_trace_only {A B} (m : M A) (f : A -> M B) :
  trace_only m -> (forall a, trace_only (f a)) -> trace_only (bind m f).
Proof.
  intros Hm Hf e s; unfold result_of, events_of, bind.
  rewrite (Hm e s), (Hm e s_empty).
  set (a := result_of m e); set (tr := events_of m e); simpl.
  rewrite (Hf a e {| trace := trace s ++ tr; ccr_reg := ccr_reg s;
                     ccr_bak := ccr_bak s |}),
          (Hf a e {| trace := tr; ccr_reg := 0; ccr_bak := 0 |}).
  unfold result_of, events_of; simpl.
  rewrite (Hf a e s_empty); simpl; now rewrite app_assoc.
Qed.

Lemma regulator_enable_trace_only r : trace_only (regulator_enable r).
Proof. intros e [t c b]; reflexivity. Qed.
Lemma regulator_get_voltage_trace_only r : trace_only (regulator_get_voltage r).
Proof. intros e [t c b]; reflexivity. Qed.
Lemma clk_prepare_enable_trace_only c : trace_only (clk_prepare_enable c).
Proof. intros e [t cc b]; reflexivity. Qed.
Lemma regmap_update_bits_trace_only c sc v : trace_only (regmap_update_bits c sc v).
Proof. intros e [t cc b]; reflexivity. Qed.
Lemma regmap_write_trace_only c r v : trace_only (regmap_write c r v).
Proof. intros e [t cc b]; reflexivity. Qed.

Ltac trace_only_tac :=
  repeat first
    [ apply regulator_enable_trace_only | apply regulator_get_voltage_trace_only
    | apply clk_prepare_enable_trace_only | apply regmap_update_bits_trace_only
    | apply regmap_write_trace_only
    | progress unfold regulator_disable, clk_disable_unprepare, usleep_range, skip
    | apply ret_trace_only
    | apply emit_trace_only
    | apply bind_trace_only; [| intros ]
    | match goal with
      | |- trace_only (if ?c then _ else _) => destruct c
      | |- trace_only (match ?x with _ => _ end) => destruct x
      | |- trace_only (let '(_, _) := ?x in _) => destruct x
      end ].

Lemma switches_supply_dis_trace_only p :
  trace_only (stm32_adc_switches_supply_dis p).
Proof.
  unfold stm32_adc_switches_supply_dis, syscfg_clear; trace_only_tac.
Qed.

Lemma switches_supply_en_trace_only p :
  trace_only (stm32_adc_switches_supply_en p).
Proof.
  unfold stm32_adc_switches_supply_en, stm32_adc_switches_set, syscfg_apply,
    booster_dis, vdd_dis, vdda_dis; trace_only_tac.
Qed.

(** Net number of successful enables minus disables of a regulator, and of
    a clock, in a call trace. *)
Definition reg_id_eqb (a b : reg_id) : bool :=
  match a, b with
  | Vref, Vref | Vdda, Vdda | Vdd, Vdd => true
  | _, _ => false
  end.

Definition clk_id_eqb (a b : clk_id) : bool :=
  match a, b with Aclk, Aclk | Bclk, Bclk => true | _, _ => false end.

Fixpoint reg_balance (r : reg_id) (tr : list event) : Z :=
  match tr with
  | [] => 0
  | RegEnable r' v :: t =>
      (if reg_id_eqb r r' && (0 <=? v) then 1 else 0) + reg_balance r t
  | RegDisable r' :: t => (if reg_id_eqb r r' then -1 else 0) + reg_balance r t
  | _ :: t => reg_balance r t
  end.

Fixpoint clk_balance (c : clk_id) (tr : list event) : Z :=
  match tr with
  | [] => 0
  | ClkEnable c' v :: t =>
      (if clk_id_eqb c c' && (0 <=? v) then 1 else 0) + clk_balance c t
  | ClkDisable c' :: t => (if clk_id_eqb c c' then -1 else 0) + clk_balance c t
  | _ :: t => clk_balance c t
  end.

Lemma reg_balance_app r a b :
  reg_balance r (a ++ b) = reg_balance r a + reg_balance r b.
Proof.
  induction a as [|ev a IH]; simpl; [reflexivity|].
  destruct ev; rewrite ?IH; lia.
Qed.

Lemma clk_balance_app c a b :
  clk_balance c (a ++ b) = clk_balance c a + clk_balance c b.
Proof.
  induction a as [|ev a IH]; simpl; [reflexivity|].
  destruct ev; rewrite ?IH; lia.
Qed.

Ltac ztrue_facts :=
  repeat match goal with
         | H : ztrue _ = true |- _ => apply ztrue_spec in H
         | H : ztrue _ = false |- _ =>
             unfold ztrue in H; apply negb_false_iff, Z.eqb_eq in H
         end.

Ltac ltb_facts :=
  repeat match goal with
         | H : (_ <? _) = true |- _ => apply Z.ltb_lt in H
         | H : (_ <? _) = false |- _ => apply Z.ltb_ge in H
         end.

(** A successful analog switches supply sequence followed by its disable
    sequence leaves every regulator as it found it; the syscfg cells play
    no part in the count. *)
Lemma switches_supply_balanced (p : stm32_adc_priv) (e : env) :
  (forall c, regmap_ret e c <= 0) ->
  0 <= result_of (stm32_adc_switches_supply_en p) e ->
  forall r, reg_balance r (events_of (stm32_adc_switches_supply_en p) e ++
                           events_of (stm32_adc_switches_supply_dis p) e) = 0.
Proof.
  intros Hwf Hok r.
  pose proof (Hwf VBOOSTER); pose proof (Hwf VBOOSTER_CLR);
  pose proof (Hwf ANASWVDD); pose proof (Hwf ANASWVDD_CLR).
  rewrite reg_balance_app.
  destruct p as [vdda_ok0 vdd_ok0 aclk0 bclk0 vb vbc asw aswc].
  unfold result_of, events_of in *.
  cbv [stm32_adc_switches_supply_en stm32_adc_switches_supply_dis
    stm32_adc_switches_set syscfg_apply syscfg_clear booster_dis vdd_dis
    vdda_dis vdd_used anaswvdd_mask stm32_adc_switches_setting
    bind ret emit skip regulator_enable regulator_disable regulator_get_voltage
    regmap_update_bits regmap_write usleep_range
    vdda_ok vdd_ok vbooster vbooster_clr anaswvdd anaswvdd_clr] in *.
  destruct vdda_ok0, vb, vdd_ok0, asw, vbc, aswc; simpl in *; try reflexivity.
  all: repeat match goal with
         | H : context [if ?c then _ else _] |- _ =>
             let E := fresh "E" in destruct c eqn:E; simpl in *
         end.
  all: repeat match goal with
         | |- context [if ?c then _ else _] =>
             let E := fresh "E" in destruct c eqn:E; simpl in *
         end.
  all: ztrue_facts; leb_facts; ltb_facts; destruct r; simpl; try lia.
Qed.

Lemma events_of_bind {A B} (m : M A) (f : A -> M B) (e : env) :
  trace_only m -> (forall a, trace_only (f a)) ->
  events_of (bind m f) e = events_of m e ++ events_of (f (result_of m e)) e.
Proof.
  intros Hm Hf; unfold events_of at 1, bind.
  rewrite (Hm e s_empty); simpl.
  rewrite (Hf (result_of m e) e); reflexivity.
Qed.

(** Programs that make no clock call. *)
Definition clk_free {A} (m : M A) : Prop :=
  trace_only m /\ forall e c, clk_balance c (events_of m e) = 0.

Lemma bind_clk_free {A B} (m : M A) (f : A -> M B) :
  clk_free m -> (forall a, clk_free (f a)) -> clk_free (bind m f).
Proof.
  intros [Hm Hm'] Hf; split.
  - apply bind_trace_only; [exact Hm | intros a; apply (Hf a)].
  - intros e c; rewrite events_of_bind; [| exact Hm | intros a; apply (Hf a)].
    rewrite clk_balance_app, Hm'; apply (Hf _).
Qed.

Lemma ret_clk_free {A} (a : A) : clk_free (ret a).
Proof. split; [apply ret_trace_only | reflexivity]. Qed.

Lemma emit_clk_free (ev : event) :
  (forall c v, ev <> ClkEnable c v) -> (forall c, ev <> ClkDisable c) ->
  clk_free (emit ev).
Proof.
  intros H1 H2; split; [apply emit_trace_only|]; intros e c.
  destruct ev; simpl; try reflexivity;
    [destruct (H1 c0 ret0 eq_refl) | destruct (H2 c0 eq_refl)].
Qed.

Ltac clk_free_tac :=
  repeat first
    [ split; [apply regulator_enable_trace_only | reflexivity]
    | split; [apply regulator_get_voltage_trace_only | reflexivity]
    | split; [apply regmap_update_bits_trace_only | reflexivity]
    | split; [apply regmap_write_trace_only | reflexivity]
    | progress unfold regulator_disable, usleep_range, skip
    | apply ret_clk_free
    | apply emit_clk_free; intros; discriminate
    | apply bind_clk_free; [| intros ]
    | match goal with
      | |- clk_free (if ?c then _ else _) => destruct c
      | |- clk_free (match ?x with _ => _ end) => destruct x
      | |- clk_free (let '(_, _) := ?x in _) => destruct x
      end ].

Lemma switches_supply_en_clk_free p : clk_free (stm32_adc_switches_supply_en p).
Proof.
  unfold stm32_adc_switches_supply_en, stm32_adc_switches_set, syscfg_apply,
    booster_dis, vdd_dis, vdda_dis; clk_free_tac.
Qed.

Lemma switches_supply_dis_clk_free p : clk_free (stm32_adc_switches_supply_dis p).
Proof.
  unfold stm32_adc_switches_supply_dis, syscfg_clear; clk_free_tac.
Qed.

(** Register content lost across a low-power state. *)
Definition ccr_lost (s : hw_state) (v : Z) : hw_state :=
  {| trace := trace s; ccr_reg := v; ccr_bak := ccr_bak s |}.

Lemma hw_stop_backup p e s :
  ccr_bak (snd (stm32_adc_core_hw_stop p e s)) = ccr_reg s.
Proof.
  unfold stm32_adc_core_hw_stop.
  cbv [bind ret emit skip readl_ccr set_ccr_bak regulator_disable
       clk_disable_unprepare].
  destruct (aclk p), (bclk p);
    rewrite (switches_supply_dis_trace_only p e); reflexivity.
Qed.

Lemma hw_start_restore p e s :
  fst (stm32_adc_core_hw_start p e s) = 0 ->
  ccr_reg (snd (stm32_adc_core_hw_start p e s)) = ccr_bak s.
Proof.
  intros H; unfold stm32_adc_core_hw_start in *.
  cbv [bind ret emit regulator_enable clk_prepare_enable err_regulator_disable
       err_switches_disable err_bclk_disable regulator_disable
       clk_disable_unprepare skip get_ccr_bak writel_ccr] in *.
  rewrite (switches_supply_en_trace_only p e s) in *.
  destruct (bclk p), (aclk p); simpl in *;
  repeat match goal with
         | |- context [if ?c then _ else _] =>
             let E := fresh "E" in destruct c eqn:E; simpl in *
         end;
  rewrite ?(switches_supply_dis_trace_only p e) in *; simpl in *; ltb_facts;
  try reflexivity; lia.
Qed.

(** A sample stm32mp1 wiring: vdda and vdd regulators, EN_BOOSTER and
    ANASWVDD cells with their clear registers, both clocks. *)
Definition sample_priv : stm32_adc_priv := {|
  vdda_ok := true; vdd_ok := true;
  aclk := Some 80000000; bclk := Some 200000000;
  vbooster := Some {| sc_reg := 4; sc_mask := 256 |};
  vbooster_clr := Some {| sc_reg := 68; sc_mask := 256 |};
  anaswvdd := Some {| sc_reg := 4; sc_mask := 512 |};
  anaswvdd_clr := Some {| sc_reg := 68; sc_mask := 512 |} |}.

(** Providers that all succeed, except the bus clock enable which returns
    [bclk_ret]; [vdda] and [vdd] are the measured voltages (µV). *)
Definition sample_env (vdda vdd bclk_ret : Z) : env := {|
  reg_enable_ret := fun _ => 0;
  reg_voltage := fun r => match r with Vdda => vdda | Vdd => vdd | Vref => 1800000 end;
  clk_enable_ret := fun c => match c with Bclk => bclk_ret | Aclk => 0 end;
  regmap_ret := fun _ => 0 |}.

(** C5: the booster / switch-select decision follows the table:
    vdda > 2.7 V gives both off; vdda <= 2.7 V and vdd < 2.7 V gives the
    booster on (its mask) and the select off; vdda <= 2.7 V and
    vdd >= 2.7 V gives the booster off and the select on (its mask).  On
    the sample wiring, (2.8 V, 3.3 V), (2.6 V, 2.5 V) and (2.6 V, 2.8 V)
    clear both cells, set the booster (then wait), and set the select. *)
Theorem C5_switches_supply_policy :
  (forall vdda vdd vbm asm, 2700000 < vdda ->
     stm32_adc_switches_setting vdda vdd vbm asm = (0, 0)) /\
  (forall vdda vdd vbm asm, vdda <= 2700000 -> vdd < 2700000 ->
     stm32_adc_switches_setting vdda vdd vbm asm = (0, vbm)) /\
  (forall vdda vdd vbm asm, vdda <= 2700000 -> 2700000 <= vdd ->
     stm32_adc_switches_setting vdda vdd vbm asm = (asm, 0)) /\
  stm32_adc_switches_supply_en sample_priv (sample_env 2800000 3300000 0) s_empty
  = (0, {| trace := [RegEnable Vdda 0; RegGetVoltage Vdda 2800000;
                     RegEnable Vdd 0; RegGetVoltage Vdd 3300000;
                     RegmapWrite VBOOSTER_CLR 68 256;
                     RegmapWrite ANASWVDD_CLR 68 512];
           ccr_reg := 0; ccr_bak := 0 |}) /\
  stm32_adc_switches_supply_en sample_priv (sample_env 2600000 2500000 0) s_empty
  = (0, {| trace := [RegEnable Vdda 0; RegGetVoltage Vdda 2600000;
                     RegEnable Vdd 0; RegGetVoltage Vdd 2500000;
                     RegmapUpdateBits VBOOSTER 4 256 256; Usleep;
                     RegmapWrite ANASWVDD_CLR 68 512];
           ccr_reg := 0; ccr_bak := 0 |}) /\
  stm32_adc_switches_supply_en sample_priv (sample_env 2600000 2800000 0) s_empty
  = (0, {| trace := [RegEnable Vdda 0; RegGetVoltage Vdda 2600000;
                     RegEnable Vdd 0; RegGetVoltage Vdd 2800000;
                     RegmapWrite VBOOSTER_CLR 68 256;
                     RegmapUpdateBits ANASWVDD 4 512 512];
           ccr_reg := 0; ccr_bak := 0 |}).
Proof.
  unfold stm32_adc_switches_setting.
  split; [intros vdda vdd vbm asm H; apply Z.ltb_lt in H; rewrite H; reflexivity|].
  split; [intros vdda vdd vbm asm H1 H2; apply Z.ltb_ge in H1;
          apply Z.ltb_lt in H2; rewrite H1, H2; reflexivity|].
  split; [intros vdda vdd vbm asm H1 H2; apply Z.ltb_ge in H1;
          apply Z.ltb_ge in H2; rewrite H1, H2; reflexivity|].
  split; [vm_compute; reflexivity|]. split; vm_compute; reflexivity.
Qed.

(** C6: if [hw_start] gets past the analog switches supply and the vref
    regulator, and enabling the bus clock fails with [err], then it
    disables vref, runs the whole switches disable sequence, returns
    exactly [err], and every regulator and clock it touched is left with
    as many disables as successful enables (regmap accessors return 0 or a
    negative errno). *)
Theorem C6_hw_start_bclk_rollback (p : stm32_adc_priv) (e : env) (s : hw_state)
    (b err : Z)
    (Hwf : forall c, regmap_ret e c <= 0)
    (Hsup : 0 <= result_of (stm32_adc_switches_supply_en p) e)
    (Hvref : 0 <= reg_enable_ret e Vref)
    (Hb : bclk p = Some b) (Herr : clk_enable_ret e Bclk = err) (Hneg : err < 0) :
  let added := events_of (stm32_adc_switches_supply_en p) e ++
    [RegEnable Vref (reg_enable_ret e Vref); ClkEnable Bclk err; RegDisable Vref] ++
    events_of (stm32_adc_switches_supply_dis p) e in
  stm32_adc_core_hw_start p e s =
    (err, {| trace := trace s ++ added; ccr_reg := ccr_reg s;
             ccr_bak := ccr_bak s |}) /\
  (forall r, reg_balance r added = 0) /\
  (forall c, clk_balance c added = 0).
Proof.
  intros added; split; [|split].
  - unfold stm32_adc_core_hw_start, bind at 1.
    rewrite (switches_supply_en_trace_only p e s).
    rewrite (proj2 (Z.ltb_ge _ _) Hsup), Hb.
    cbv [bind ret emit regulator_enable clk_prepare_enable err_regulator_disable
         err_switches_disable regulator_disable].
    rewrite (proj2 (Z.ltb_ge _ _) Hvref), Herr, (proj2 (Z.ltb_lt _ _) Hneg).
    rewrite (switches_supply_dis_trace_only p e); simpl.
    unfold added; rewrite <- !app_assoc; reflexivity.
  - intros r; unfold added; rewrite !reg_balance_app.
    pose proof (switches_supply_balanced p e Hwf Hsup r) as Hbal.
    rewrite reg_balance_app in Hbal.
    destruct r; simpl; destruct (0 <=? reg_enable_ret e Vref) eqn:E; simpl;
      try (apply Z.leb_gt in E; lia); lia.
  - intros c; unfold added.
    rewrite !clk_balance_app, (proj2 (switches_supply_en_clk_free p)),
      (proj2 (switches_supply_dis_clk_free p)).
    apply Z.leb_gt in Hneg; destruct c; simpl; rewrite ?Hneg; reflexivity.
Qed.

Lemma C6_hw_start_bclk_rollback_witness :
  fst (stm32_adc_core_hw_start sample_priv (sample_env 2600000 2500000 (-5))
         s_empty) = -5 /\
  trace (snd (stm32_adc_core_hw_start sample_priv
                (sample_env 2600000 2500000 (-5)) s_empty)) =
  [RegEnable Vdda 0; RegGetVoltage Vdda 2600000; RegEnable Vdd 0;
   RegGetVoltage Vdd 2500000; RegmapUpdateBits VBOOSTER 4 256 256; Usleep;
   RegmapWrite ANASWVDD_CLR 68 512; RegEnable Vref 0; ClkEnable Bclk (-5);
   RegDisable Vref; RegmapWrite ANASWVDD_CLR 68 512;
   RegmapWrite VBOOSTER_CLR 68 256; RegDisable Vdd; RegDisable Vdda].
Proof.
  assert (Hrun := proj1 (C6_hw_start_bclk_rollback sample_priv
            (sample_env 2600000 2500000 (-5)) s_empty 200000000 (-5)
            ltac:(intros []; simpl; lia)
            ltac:(vm_compute; discriminate)
            ltac:(simpl; lia)
            eq_refl eq_refl ltac:(lia))).
  rewrite Hrun; split; [reflexivity | vm_compute; reflexivity].
Defined.

(** C7: whatever the control register holds before [hw_stop], and whatever
    it holds after the low-power state, a subsequent successful [hw_start]
    leaves exactly the value read by [hw_stop] in it. *)
Theorem C7_ccr_round_trip (p : stm32_adc_priv) (e1 e2 : env) (s : hw_state)
    (lost : Z)
    (H : fst (stm32_adc_core_hw_start p e2
                (ccr_lost (snd (stm32_adc_core_hw_stop p e1 s)) lost)) = 0) :
  ccr_reg (snd (stm32_adc_core_hw_start p e2
                  (ccr_lost (snd (stm32_adc_core_hw_stop p e1 s)) lost)))
  = ccr_reg s.
Proof.
  rewrite (hw_start_restore _ _ _ H); simpl; apply hw_stop_backup.
Qed.

Lemma C7_ccr_round_trip_witness :
  ccr_reg (snd (stm32_adc_core_hw_start sample_priv (sample_env 2800000 0 0)
    (ccr_lost (snd (stm32_adc_core_hw_stop sample_priv (sample_env 2800000 0 0)
       {| trace := []; ccr_reg := 327680; ccr_bak := 0 |})) 0)))
  = 327680.
Proof.
  apply (C7_ccr_round_trip sample_priv (sample_env 2800000 0 0)
           (sample_env 2800000 0 0)
           {| trace := []; ccr_reg := 327680; ccr_bak := 0 |} 0).
  vm_compute; reflexivity.
Defined.

(** * Further properties: the probe path and the sequencer *)

Lemma rmw_keep (ccr M K : Z) :
  Z.land K (Z.lnot M) = 0 ->
  Z.land (Z.lor (Z.land ccr (Z.lnot M)) K) (Z.lnot M) = Z.land ccr (Z.lnot M).
Proof.
  intros H; rewrite Z.land_lor_distr_l, <- Z.land_assoc, Z.land_diag, H, Z.lor_0_r.
  reflexivity.
Qed.

Lemma rmw_field (ccr M K F : Z) :
  Z.land (Z.lnot M) F = 0 ->
  Z.land (Z.lor (Z.land ccr (Z.lnot M)) K) F = Z.land K F.
Proof.
  intros H; rewrite Z.land_lor_distr_l, <- Z.land_assoc, H, Z.land_0_r, Z.lor_0_l.
  reflexivity.
Qed.

Lemma stm32h7_ck_scan_in sk r m l s :
  stm32h7_ck_scan sk r m l = Some s -> In s l.
Proof.
  induction l as [|x l IH]; simpl; [discriminate|].
  destruct (sk (ckmode x)); [intros H; right; auto|].
  destruct (r / div x <=? m); [intros H; injection H; auto | intros H; right; auto].
Qed.

(** X4: a successful stm32f4 clock selection rewrites only the ADCPRE field
    of the common control register; every other bit keeps the value read,
    and the field reads back as the chosen prescaler index, whose entry in
    [stm32f4_pclk_div] is the divider used. *)
Theorem f4_clk_sel_ccr_fields aclk bclk max_clk_rate ccr pl :
  stm32f4_adc_clk_sel aclk bclk max_clk_rate ccr = inr pl ->
  Z.land (pl_ccr pl) (Z.lnot STM32F4_ADC_ADCPRE_MASK) =
    Z.land ccr (Z.lnot STM32F4_ADC_ADCPRE_MASK) /\
  Z.shiftr (Z.land (pl_ccr pl) STM32F4_ADC_ADCPRE_MASK) STM32F4_ADC_ADCPRE_SHIFT =
    pl_presc pl /\
  pl_div pl = nth (Z.to_nat (pl_presc pl)) stm32f4_pclk_div 0.
Proof.
  unfold stm32f4_adc_clk_sel; destruct aclk as [rate|]; [|discriminate].
  destruct (rate =? 0); [discriminate|].
  set (i := stm32f4_pclk_scan rate max_clk_rate stm32f4_pclk_div 0).
  destruct (length stm32f4_pclk_div <=? i)%nat eqn:Hi; [discriminate|].
  intros H; injection H as <-; simpl.
  apply Nat.leb_gt in Hi; simpl in Hi.
  rewrite Nat2Z.id.
  destruct i as [|[|[|[|i]]]]; try lia;
    (split; [apply rmw_keep | split; [rewrite rmw_field|]]); reflexivity.
Qed.

(** X5: a successful stm32h7 clock selection rewrites only the CKMODE and
    PRESC fields of the common control register; every other bit keeps the
    value read, the two fields read back as the chosen clock mode and
    prescaler, and (clock mode, prescaler, divider) is an entry of
    [stm32h7_adc_ckmodes_spec]. *)
Theorem h7_clk_sel_ccr_fields aclk bclk max_clk_rate ccr pl :
  stm32h7_adc_clk_sel aclk bclk max_clk_rate ccr = inr pl ->
  let M := Z.lor STM32H7_CKMODE_MASK STM32H7_PRESC_MASK in
  Z.land (pl_ccr pl) (Z.lnot M) = Z.land ccr (Z.lnot M) /\
  Z.shiftr (Z.land (pl_ccr pl) STM32H7_CKMODE_MASK) STM32H7_CKMODE_SHIFT =
    pl_ckmode pl /\
  Z.shiftr (Z.land (pl_ccr pl) STM32H7_PRESC_MASK) STM32H7_PRESC_SHIFT =
    pl_presc pl /\
  In (ck (pl_ckmode pl) (pl_presc pl) (pl_div pl)) stm32h7_adc_ckmodes_spec.
Proof.
  assert (Hout : forall src rate s, In s stm32h7_adc_ckmodes_spec ->
    let pl := stm32h7_adc_clk_out src rate s ccr in
    let M := Z.lor STM32H7_CKMODE_MASK STM32H7_PRESC_MASK in
    Z.land (pl_ccr pl) (Z.lnot M) = Z.land ccr (Z.lnot M) /\
    Z.shiftr (Z.land (pl_ccr pl) STM32H7_CKMODE_MASK) STM32H7_CKMODE_SHIFT =
      pl_ckmode pl /\
    Z.shiftr (Z.land (pl_ccr pl) STM32H7_PRESC_MASK) STM32H7_PRESC_SHIFT =
      pl_presc pl /\
    In (ck (pl_ckmode pl) (pl_presc pl) (pl_div pl)) stm32h7_adc_ckmodes_spec).
  { intros src rate s Hin; cbv zeta; unfold stm32h7_adc_clk_out, pl_ccr, pl_ckmode, pl_presc, pl_div.
    rewrite <- !Z.lor_assoc.
    simpl in Hin; repeat destruct Hin as [<- | Hin]; [..|contradiction];
      (split; [apply rmw_keep; reflexivity|
       split; [rewrite rmw_field; reflexivity|
       split; [rewrite rmw_field; reflexivity| simpl; tauto]]]). }
  unfold stm32h7_adc_clk_sel, stm32h7_adc_clk_sync.
  destruct bclk as [b|]; [|discriminate].
  destruct aclk as [a|].
  - destruct (a =? 0); [discriminate|].
    destruct (stm32h7_ck_scan skip_sync a max_clk_rate stm32h7_adc_ckmodes_spec) eqn:E.
    + intros H; injection H as <-; apply Hout; eapply stm32h7_ck_scan_in; eauto.
    + destruct (b =? 0); [discriminate|].
      destruct (stm32h7_ck_scan skip_async b max_clk_rate stm32h7_adc_ckmodes_spec) eqn:E2;
        [|discriminate].
      intros H; injection H as <-; apply Hout; eapply stm32h7_ck_scan_in; eauto.
  - destruct (b =? 0); [discriminate|].
    destruct (stm32h7_ck_scan skip_async b max_clk_rate stm32h7_adc_ckmodes_spec) eqn:E2;
      [|discriminate].
    intros H; injection H as <-; apply Hout; eapply stm32h7_ck_scan_in; eauto.
Qed.

Lemma div_anti (r a b : Z) : 0 <= r -> 0 < a <= b -> r / b <= r / a.
Proof. intros; apply Z.div_le_compat_l; lia. Qed.

Ltac div_chain r ds :=
  match ds with
  | ?a :: ?b :: ?t =>
      let H := fresh "D" in
      assert (H : r / b <= r / a) by (apply div_anti; lia);
      div_chain r (b :: t)
  | _ => idtac
  end.

Lemma h7_async_scan_none (r m : Z) : 0 <= r ->
  stm32h7_ck_scan skip_sync r m stm32h7_adc_ckmodes_spec = None <-> m < r / 256.
Proof.
  intros Hr; div_chain r [1; 2; 4; 6; 8; 10; 12; 16; 32; 64; 128; 256].
  cbn [stm32h7_ck_scan stm32h7_adc_ckmodes_spec ck skip_sync ztrue ckmode div
       Z.eqb negb].
  repeat match goal with
         | |- context [if ?c then _ else _] =>
             let E := fresh "E" in destruct c eqn:E
         end; leb_facts; split; intros; try discriminate; try reflexivity; lia.
Qed.

Lemma h7_sync_scan_none (r m : Z) : 0 <= r ->
  stm32h7_ck_scan skip_async r m stm32h7_adc_ckmodes_spec = None <-> m < r / 4.
Proof.
  intros Hr; div_chain r [1; 2; 4].
  cbn [stm32h7_ck_scan stm32h7_adc_ckmodes_spec ck skip_async ztrue ckmode div
       Z.eqb negb].
  repeat match goal with
         | |- context [if ?c then _ else _] =>
             let E := fresh "E" in destruct c eqn:E
         end; leb_facts; split; intros; try discriminate; try reflexivity; lia.
Qed.

(** X6: for non-negative clock rates, the stm32f4 selection succeeds exactly
    when the 'adc' clock is present with a non-zero rate whose division by
    the largest divider (8) is within the bound. *)
Theorem f4_clk_sel_success aclk bclk max_clk_rate ccr
    (Hrate : forall r, aclk = Some r -> 0 <= r) :
  (exists pl, stm32f4_adc_clk_sel aclk bclk max_clk_rate ccr = inr pl) <->
  (exists r, aclk = Some r /\ r <> 0 /\ r / 8 <= max_clk_rate).
Proof.
  unfold stm32f4_adc_clk_sel; destruct aclk as [r|].
  2: split; [intros [pl H]; discriminate | intros [r [H _]]; discriminate].
  specialize (Hrate r eq_refl).
  destruct (r =? 0) eqn:Z0; leb_facts.
  { apply Z.eqb_eq in Z0; split; [intros [pl H]; discriminate|].
    intros [r' [H [H' _]]]; injection H; lia. }
  div_chain r [2; 4; 6; 8].
  cbn [stm32f4_pclk_scan stm32f4_pclk_div].
  repeat match goal with
         | |- context [if (?a <=? ?b) then _ else _] =>
             let E := fresh "E" in destruct (a <=? b) eqn:E
         end; leb_facts; cbn;
  (split; [intros [pl H]; try discriminate | intros [r' [H [H' H'']]]; injection H as <-]);
  try (eexists; reflexivity); try (exists r; repeat split; lia); lia.
Qed.

(** X7: for non-negative clock rates, the stm32h7 selection succeeds exactly
    when the 'bus' clock is present and either the 'adc' clock is present
    with a non-zero rate that fits the bound once divided by 256, or it has
    a non-zero rate and the bus rate divided by 4 fits; or, without 'adc'
    clock, the bus rate is non-zero and divided by 4 fits. *)
Theorem h7_clk_sel_success aclk bclk max_clk_rate ccr
    (Ha : forall r, aclk = Some r -> 0 <= r)
    (Hb : forall r, bclk = Some r -> 0 <= r) :
  (exists pl, stm32h7_adc_clk_sel aclk bclk max_clk_rate ccr = inr pl) <->
  (exists b, bclk = Some b /\
     match aclk with
     | Some a => a <> 0 /\ (a / 256 <= max_clk_rate \/ (b <> 0 /\ b / 4 <= max_clk_rate))
     | None => b <> 0 /\ b / 4 <= max_clk_rate
     end).
Proof.
  assert (Hsync : forall b, 0 <= b ->
    (exists pl, stm32h7_adc_clk_sync b max_clk_rate ccr = inr pl) <->
    b <> 0 /\ b / 4 <= max_clk_rate).
  { intros b H0; unfold stm32h7_adc_clk_sync.
    destruct (b =? 0) eqn:Z0.
    - apply Z.eqb_eq in Z0; split; [intros [pl H]; discriminate | lia].
    - apply Z.eqb_neq in Z0.
      pose proof (h7_sync_scan_none b max_clk_rate H0) as HN.
      destruct (stm32h7_ck_scan skip_async b max_clk_rate stm32h7_adc_ckmodes_spec).
      + split; [intros _; split; [exact Z0|] | intros _; eexists; reflexivity].
        destruct (Z.le_gt_cases (b / 4) max_clk_rate) as [Hle|Hgt]; [exact Hle|].
        apply proj2 in HN; specialize (HN Hgt); discriminate.
      + split; [intros [pl H]; discriminate | intros [_ Hle]].
        apply proj1 in HN; specialize (HN eq_refl); lia. }
  unfold stm32h7_adc_clk_sel.
  destruct bclk as [b|].
  2: split; [intros [pl H]; discriminate | intros [b [H _]]; discriminate].
  specialize (Hb b eq_refl).
  destruct aclk as [a|].
  - specialize (Ha a eq_refl).
    destruct (a =? 0) eqn:Z0.
    + apply Z.eqb_eq in Z0; split; [intros [pl H]; discriminate|].
      intros [b' [_ [H _]]]; lia.
    + apply Z.eqb_neq in Z0.
      pose proof (h7_async_scan_none a max_clk_rate Ha) as HN.
      destruct (stm32h7_ck_scan skip_sync a max_clk_rate stm32h7_adc_ckmodes_spec).
      * split; [intros _ | intros _; eexists; reflexivity].
        exists b; split; [reflexivity|]; split; [exact Z0|left].
        destruct (Z.le_gt_cases (a / 256) max_clk_rate) as [Hle|Hgt]; [exact Hle|].
        apply proj2 in HN; specialize (HN Hgt); discriminate.
      * rewrite (Hsync b Hb).
        split; [intros H; exists b; split; [reflexivity|]; split; [exact Z0|right; exact H]|].
        intros [b' [Hbb [_ [Hle|H]]]]; injection Hbb as <-; [|exact H].
        apply proj1 in HN; specialize (HN eq_refl); lia.
  - rewrite (Hsync b Hb).
    split; [intros H; exists b; split; [reflexivity | exact H]|].
    intros [b' [Hbb H]]; injection Hbb as <-; exact H.
Qed.

Ltac ltb_all :=
  repeat match goal with
         | H : (_ <? _) = true |- _ => apply Z.ltb_lt in H
         | H : (_ <? _) = false |- _ => apply Z.ltb_ge in H
         | H : (_ =? _) = true |- _ => apply Z.eqb_eq in H
         | H : (_ =? _) = false |- _ => apply Z.eqb_neq in H
         | H : (_ <=? _) = true |- _ => apply Z.leb_le in H
         | H : (_ <=? _) = false |- _ => apply Z.leb_gt in H
         end.

Ltac split_ifs :=
  repeat (match goal with
          | |- context [if ?c then _ else _] => let E := fresh "E" in destruct c eqn:E
          end; cbn beta iota in *).

(** X9: [stm32_adc_irq_probe] never returns a positive value, and it
    returns 0 exactly when the domain is allocated, line 0 is valid, and
    lines 1 and 2 are each valid or missing with -ENXIO. *)
Theorem irq_probe_result (platform_get_irq : nat -> Z) (domain_ok : bool) :
  let '(r, _, _) := stm32_adc_irq_probe platform_get_irq domain_ok in
  r <= 0 /\
  (r = 0 <-> domain_ok = true /\ 0 <= platform_get_irq 0%nat /\
     (0 <= platform_get_irq 1%nat \/ platform_get_irq 1%nat = - ENXIO) /\
     (0 <= platform_get_irq 2%nat \/ platform_get_irq 2%nat = - ENXIO)).
Proof.
  unfold stm32_adc_irq_probe, ztrue;
    cbn [stm32_adc_irq_get STM32_ADC_MAX_ADCS Nat.eqb negb andb].
  unfold ENXIO, ENOMEM in *; cbn [Z.opp] in *.
  split_ifs; destruct domain_ok; cbn beta iota; ltb_all;
    (split; [lia | split; [intros; try discriminate; repeat split; lia
                          | intros; intuition (try discriminate; lia)]]).
Qed.

(** X10: after a successful [stm32_adc_irq_probe], [priv->irq] holds the
    three values read, chained handlers are installed on the non-negative
    ones (line 0 among them), and [stm32_adc_irq_remove] disposes of the six
    hardware irqs and resets exactly those chained lines. *)
Theorem irq_probe_lines (platform_get_irq : nat -> Z) (domain_ok : bool)
    (irqs lines : list Z)
    (H : stm32_adc_irq_probe platform_get_irq domain_ok = (0, irqs, lines)) :
  irqs = [platform_get_irq 0%nat; platform_get_irq 1%nat; platform_get_irq 2%nat] /\
  lines = filter (fun irq => 0 <=? irq) irqs /\
  In (platform_get_irq 0%nat) lines /\
  stm32_adc_irq_remove irqs = ([0; 1; 2; 3; 4; 5]%nat, lines).
Proof.
  revert H; unfold stm32_adc_irq_probe, ztrue;
    cbn [stm32_adc_irq_get STM32_ADC_MAX_ADCS Nat.eqb negb andb].
  unfold ENXIO, ENOMEM in *; cbn [Z.opp] in *.
  split_ifs; destruct domain_ok; intros H; try discriminate; inversion H; subst;
    clear H; ltb_all; try lia;
    (split; [reflexivity | split; [reflexivity | split; [| reflexivity]]]);
    unfold stm32_adc_irq_lines; cbn [filter];
    rewrite (proj2 (Z.leb_le 0 (platform_get_irq 0%nat))) by lia; left; reflexivity.
Qed.

(** X11: when [stm32_adc_get_syscfg_cell] returns 0, the cell is absent
    exactly when the regmap lookup failed with -ENODEV, and a present cell
    holds the reg and mask read from the property. *)
Theorem get_syscfg_cell_ok (d : syscfg_dt)
    (H : fst (stm32_adc_get_syscfg_cell d) = 0) :
  (snd (stm32_adc_get_syscfg_cell d) = None <-> dt_lookup d = - ENODEV) /\
  (forall c, snd (stm32_adc_get_syscfg_cell d) = Some c ->
     c = {| sc_reg := dt_reg d; sc_mask := dt_mask d |}).
Proof.
  revert H; unfold stm32_adc_get_syscfg_cell, ztrue.
  destruct (dt_lookup d =? 0) eqn:L0; cbn [negb].
  - destruct (dt_reg_ret d =? 0) eqn:R0; cbn [negb fst snd]; [|intros; ltb_all; lia].
    intros Hm; rewrite Hm; cbn [Z.eqb negb]; ltb_all; unfold ENODEV.
    split; [split; [discriminate | lia]|].
    intros c Hc; injection Hc as <-; reflexivity.
  - destruct (dt_lookup d =? - ENODEV) eqn:N; cbn [fst snd]; intros Hr; ltb_all; [|lia].
    split; [tauto | discriminate].
Qed.

(** X12: [stm32_adc_syscfg_probe] returns the first non-zero cell lookup
    result in the order vbooster, vbooster-clr, anaswvdd, anaswvdd-clr;
    when there is none, -EINVAL if the compatible needs set/clear pairs and
    one set cell lacks its clear cell, otherwise 0. *)
Theorem syscfg_probe_ret (cfg : stm32_adc_priv_cfg) (dvb dvbc dasw daswc : syscfg_dt)
    (p : stm32_adc_priv) :
  fst (stm32_adc_syscfg_probe cfg dvb dvbc dasw daswc p) =
  match find ztrue (map (fun d => fst (stm32_adc_get_syscfg_cell d))
                        [dvb; dvbc; dasw; daswc]) with
  | Some r => r
  | None =>
      let cell d := snd (stm32_adc_get_syscfg_cell d) in
      if has_syscfg_clr cfg &&
         ((is_some (cell dvb) && negb (is_some (cell dvbc))) ||
          (is_some (cell dasw) && negb (is_some (cell daswc))))
      then - EINVAL else 0
  end.
Proof.
  unfold stm32_adc_syscfg_probe; cbn [map find].
  destruct (stm32_adc_get_syscfg_cell dvb) as [r1 c1],
           (stm32_adc_get_syscfg_cell dvbc) as [r2 c2],
           (stm32_adc_get_syscfg_cell dasw) as [r3 c3],
           (stm32_adc_get_syscfg_cell daswc) as [r4 c4]; cbn [fst snd].
  destruct (ztrue r1) eqn:Z1; [reflexivity|].
  destruct (ztrue r2) eqn:Z2; [reflexivity|].
  destruct (ztrue r3) eqn:Z3; [reflexivity|].
  destruct (ztrue r4) eqn:Z4; [reflexivity|].
  destruct (_ && _); [reflexivity|].
  unfold ztrue in Z4; apply negb_false_iff, Z.eqb_eq in Z4; exact Z4.
Qed.

(** X13: after a successful [stm32_adc_syscfg_probe], the private data holds
    the four cells as looked up and nothing else changed; with
    [has_syscfg_clr], each present set cell has its clear cell. *)
Theorem syscfg_probe_ok (cfg : stm32_adc_priv_cfg) (dvb dvbc dasw daswc : syscfg_dt)
    (p : stm32_adc_priv)
    (H : fst (stm32_adc_syscfg_probe cfg dvb dvbc dasw daswc p) = 0) :
  let p' := snd (stm32_adc_syscfg_probe cfg dvb dvbc dasw daswc p) in
  p' = with_syscfg p (snd (stm32_adc_get_syscfg_cell dvb))
         (snd (stm32_adc_get_syscfg_cell dvbc)) (snd (stm32_adc_get_syscfg_cell dasw))
         (snd (stm32_adc_get_syscfg_cell daswc)) /\
  (has_syscfg_clr cfg = true ->
     (vbooster p' <> None -> vbooster_clr p' <> None) /\
     (anaswvdd p' <> None -> anaswvdd_clr p' <> None)).
Proof.
  revert H; unfold stm32_adc_syscfg_probe; cbv zeta.
  destruct (stm32_adc_get_syscfg_cell dvb) as [r1 c1],
           (stm32_adc_get_syscfg_cell dvbc) as [r2 c2],
           (stm32_adc_get_syscfg_cell dasw) as [r3 c3],
           (stm32_adc_get_syscfg_cell daswc) as [r4 c4]; cbn [fst snd].
  unfold ztrue.
  destruct (r1 =? 0) eqn:Z1; cbn [negb fst]; [|intros; ltb_all; lia].
  destruct (r2 =? 0) eqn:Z2; cbn [negb fst]; [|intros; ltb_all; lia].
  destruct (r3 =? 0) eqn:Z3; cbn [negb fst]; [|intros; ltb_all; lia].
  destruct (r4 =? 0) eqn:Z4; cbn [negb fst]; [|intros; ltb_all; lia].
  destruct (has_syscfg_clr cfg) eqn:Hc; cbn [andb].
  - destruct c1, c2, c3, c4; cbn; intros Hr; try (exfalso; unfold EINVAL in *; lia);
      (split; [reflexivity | intros _; split; congruence]).
  - intros _; split; [reflexivity | congruence].
Qed.

(** X14: [stm32_adc_validate_device] accepts (returns 0) exactly the devices
    whose parent is a child of the trigger's parent, and rejects the others
    with -EINVAL. *)
Theorem validate_device_spec (children : list nat) (indio_parent : nat) :
  (stm32_adc_validate_device children indio_parent = 0 <-> In indio_parent children) /\
  (~ In indio_parent children -> stm32_adc_validate_device children indio_parent = - EINVAL).
Proof.
  assert (Hw : forall l, device_for_each_child l indio_parent is_stm32_adc_child_dev =
                         if existsb (Nat.eqb indio_parent) l then 1 else 0).
  { induction l as [|c l IH]; [reflexivity|]; cbn [device_for_each_child existsb].
    unfold is_stm32_adc_child_dev; rewrite (Nat.eqb_sym c indio_parent).
    destruct (Nat.eqb indio_parent c); [reflexivity|]; exact IH. }
  unfold stm32_adc_validate_device; rewrite Hw.
  assert (Hin : existsb (Nat.eqb indio_parent) children = true <-> In indio_parent children).
  { rewrite existsb_exists; split.
    - intros [x [Hx E]]; apply Nat.eqb_eq in E; subst; exact Hx.
    - intros Hx; exists indio_parent; split; [exact Hx | apply Nat.eqb_refl]. }
  destruct (existsb (Nat.eqb indio_parent) children); cbn.
  - split; [split; [intros _; apply Hin; reflexivity | reflexivity]|].
    intros Hn; exfalso; apply Hn, Hin; reflexivity.
  - split; [split; [discriminate | intros Hx; apply Hin in Hx; discriminate]|].
    reflexivity.
Qed.

Lemma trig_children_ok te name cs st st' :
  stm32_adc_trig_children te name cs st = (0, st') ->
  let m := filter (fun c => trigger_name_match c name) cs in
  extrig_list st' = extrig_list st ++ map (fun _ => name) m /\
  disabled_irqs st' = disabled_irqs st ++ map tc_irq m /\
  Forall (fun c => 0 < tc_irq c) m.
Proof.
  revert st; induction cs as [|c cs IH]; intros st H; cbn in H |- *.
  - injection H as <-; rewrite !app_nil_r; auto.
  - destruct (trigger_name_match c name) eqn:Hm; cbn [negb] in H; [|apply IH, H].
    unfold ztrue in H.
    destruct (stm32_adc_trig_alloc_register te name =? 0) eqn:A; cbn [negb] in H;
      [|injection H as H _; apply Z.eqb_neq in A; congruence].
    destruct (tc_irq c <=? 0) eqn:I.
    { injection H as H _; destruct (tc_irq c =? 0) eqn:I0; cbn in H;
        ltb_all; unfold ENODEV in H; lia. }
    destruct (request_irq_ret te (tc_irq c) =? 0) eqn:R; cbn [negb] in H;
      [|injection H as H _; apply Z.eqb_neq in R; congruence].
    apply IH in H; cbn in H; destruct H as (H1 & H2 & H3).
    rewrite H1, H2, <- !app_assoc; ltb_all.
    split; [reflexivity | split; [reflexivity | constructor; [lia | exact H3]]].
Qed.

(** X15: when [stm32_adc_triggers_probe] returns 0, one trigger was
    registered per (trigger info, matching child) pair, in trigger info
    order then child order, the irq of each was disabled in the same order,
    and all these irqs are positive. *)
Theorem triggers_probe_ok (te : trig_env) (trinfo : list string)
    (children : list trig_child) (st : trig_state)
    (H : stm32_adc_triggers_probe te trinfo children = (0, st)) :
  let m name := filter (fun c => trigger_name_match c name) children in
  extrig_list st = flat_map (fun name => map (fun _ => name) (m name)) trinfo /\
  disabled_irqs st = flat_map (fun name => map tc_irq (m name)) trinfo /\
  Forall (fun irq => 0 < irq) (disabled_irqs st).
Proof.
  unfold stm32_adc_triggers_probe in H.
  assert (G : forall ts st0 st1, stm32_adc_trig_infos te ts children st0 = (0, st1) ->
    let m name := filter (fun c => trigger_name_match c name) children in
    extrig_list st1 = extrig_list st0 ++ flat_map (fun name => map (fun _ => name) (m name)) ts /\
    disabled_irqs st1 = disabled_irqs st0 ++ flat_map (fun name => map tc_irq (m name)) ts /\
    Forall (fun irq => 0 < irq) (flat_map (fun name => map tc_irq (m name)) ts)).
  { induction ts as [|name ts IH]; intros st0 st1 Hr; cbn in Hr |- *.
    - injection Hr as <-; rewrite !app_nil_r; auto.
    - destruct (stm32_adc_trig_children te name children st0) as [r s1] eqn:Hc.
      unfold ztrue in Hr; destruct (r =? 0) eqn:R; cbn [negb] in Hr;
        [|injection Hr as Hr _; apply Z.eqb_neq in R; congruence].
      apply Z.eqb_eq in R; subst r.
      destruct (trig_children_ok _ _ _ _ _ Hc) as (C1 & C2 & C3).
      destruct (IH _ _ Hr) as (D1 & D2 & D3).
      rewrite D1, D2, C1, C2, <- !app_assoc.
      split; [reflexivity | split; [reflexivity|]].
      apply Forall_app; split; [|exact D3].
      apply Forall_map; exact C3. }
  destruct (G _ _ _ H) as (G1 & G2 & G3); cbn in G1, G2.
  split; [exact G1 | split; [exact G2 | rewrite G2; exact G3]].
Qed.

Lemma trig_children_app (te : trig_env) (name : string) (cs1 cs2 : list trig_child)
    (st : trig_state) :
  fst (stm32_adc_trig_children te name cs1 st) = 0 ->
  stm32_adc_trig_children te name (cs1 ++ cs2) st =
  stm32_adc_trig_children te name cs2 (snd (stm32_adc_trig_children te name cs1 st)).
Proof.
  revert st; induction cs1 as [|c cs IH]; intros st H; [reflexivity|].
  cbn in H |- *.
  destruct (trigger_name_match c name); cbn [negb] in H |- *; [|apply IH, H].
  destruct (ztrue (stm32_adc_trig_alloc_register te name)) eqn:R;
    [unfold ztrue in R; cbn in H; rewrite H in R; discriminate|].
  destruct (tc_irq c <=? 0).
  - exfalso; cbn in H; unfold ztrue in H.
    destruct (tc_irq c =? 0) eqn:Z0; cbn in H;
      [unfold ENODEV in H; lia | apply Z.eqb_neq in Z0; lia].
  - destruct (ztrue (request_irq_ret te (tc_irq c))) eqn:Q;
      [unfold ztrue in Q; cbn in H; rewrite H in Q; discriminate | apply IH, H].
Qed.

Lemma trig_infos_app (te : trig_env) (pre post : list string)
    (children : list trig_child) (st : trig_state) :
  fst (stm32_adc_trig_infos te pre children st) = 0 ->
  stm32_adc_trig_infos te (pre ++ post) children st =
  stm32_adc_trig_infos te post children (snd (stm32_adc_trig_infos te pre children st)).
Proof.
  revert st; induction pre as [|name ts IH]; intros st H; [reflexivity|].
  cbn in H |- *.
  destruct (stm32_adc_trig_children te name children st) as [r s1].
  destruct (ztrue r) eqn:R; [cbn in H; unfold ztrue in R; rewrite H in R; discriminate|].
  apply IH, H.
Qed.

(** X16: [stm32_adc_triggers_probe] returns 0 or a negative value when
    trigger registration and irq requests return 0 or a negative errno.
    Whatever they return, once the probe reaches a matching child whose
    irq lookup gives a value [<= 0] (the earlier trigger infos and the
    earlier children having gone through, the trigger allocated and
    registered), it returns -ENODEV for a lookup of 0 and the lookup's
    negative value otherwise. *)
Theorem triggers_probe_errno (te : trig_env) (trinfo : list string)
    (children : list trig_child) :
  ((forall name, trig_register_ret te name <= 0) ->
   (forall irq, request_irq_ret te irq <= 0) ->
   fst (stm32_adc_triggers_probe te trinfo children) <= 0) /\
  (forall pre name post cs1 c cs2,
     trinfo = pre ++ name :: post ->
     children = cs1 ++ c :: cs2 ->
     fst (stm32_adc_trig_infos te pre children
            {| extrig_list := []; disabled_irqs := [] |}) = 0 ->
     fst (stm32_adc_trig_children te name cs1
            (snd (stm32_adc_trig_infos te pre children
                    {| extrig_list := []; disabled_irqs := [] |}))) = 0 ->
     trigger_name_match c name = true ->
     trig_alloc_ok te name = true ->
     trig_register_ret te name = 0 ->
     tc_irq c <= 0 ->
     fst (stm32_adc_triggers_probe te trinfo children) =
       if tc_irq c =? 0 then - ENODEV else tc_irq c).
Proof.
  split.
  { intros Hreg Hreq.
    assert (Hc : forall name cs st, fst (stm32_adc_trig_children te name cs st) <= 0).
    { intros name cs; induction cs as [|c cs IH]; intros st; cbn; [lia|].
      destruct (trigger_name_match c name); cbn [negb]; [|apply IH].
      unfold stm32_adc_trig_alloc_register.
      destruct (trig_alloc_ok te name); [|unfold ENOMEM; cbn; lia].
      specialize (Hreg name).
      destruct (ztrue (trig_register_ret te name)); [cbn; lia|].
      destruct (tc_irq c <=? 0) eqn:I.
      - ltb_all; destruct (ztrue (tc_irq c)); cbn; unfold ENODEV; lia.
      - specialize (Hreq (tc_irq c)).
        destruct (ztrue (request_irq_ret te (tc_irq c))); [cbn; lia | apply IH]. }
    unfold stm32_adc_triggers_probe.
    generalize {| extrig_list := []; disabled_irqs := [] |} as st.
    induction trinfo as [|name ts IH]; intros st; cbn; [lia|].
    specialize (Hc name children st).
    destruct (stm32_adc_trig_children te name children st) as [r s1].
    destruct (ztrue r); [exact Hc | apply IH]. }
  intros pre name post cs1 c cs2 -> Hch Hpre Hcs1 Hm Ha Hr Hi.
  unfold stm32_adc_triggers_probe.
  rewrite (trig_infos_app te pre (name :: post) children _ Hpre).
  set (st0 := snd (stm32_adc_trig_infos te pre children
                     {| extrig_list := []; disabled_irqs := [] |})) in *.
  cbn [stm32_adc_trig_infos].
  rewrite Hch.
  rewrite (trig_children_app te name cs1 (c :: cs2) st0 Hcs1).
  cbn [stm32_adc_trig_children].
  rewrite Hm; cbn [negb].
  unfold stm32_adc_trig_alloc_register; rewrite Ha, Hr.
  apply Z.leb_le in Hi; rewrite Hi.
  unfold ztrue; cbv beta iota zeta.
  destruct (tc_irq c =? 0) eqn:Z0; cbn [negb fst]; [reflexivity|].
  cbn; rewrite ?Z0; reflexivity.
Qed.

Lemma hw_start_state p e s :
  stm32_adc_core_hw_start p e s =
  (result_of (stm32_adc_core_hw_start p) e,
   {| trace := trace s ++ events_of (stm32_adc_core_hw_start p) e;
      ccr_reg := if result_of (stm32_adc_core_hw_start p) e =? 0
                 then ccr_bak s else ccr_reg s;
      ccr_bak := ccr_bak s |}).
Proof.
  unfold result_of, events_of, stm32_adc_core_hw_start, bind.
  rewrite (switches_supply_en_trace_only p e s), (switches_supply_en_trace_only p e s_empty).
  cbv beta iota zeta.
  destruct (result_of (stm32_adc_switches_supply_en p) e <? 0) eqn:E0.
  { cbn. apply Z.ltb_lt in E0; destruct (_ =? 0) eqn:Z0; [apply Z.eqb_eq in Z0; lia|].
    destruct s; reflexivity. }
  cbv [ret emit regulator_enable clk_prepare_enable err_regulator_disable
       err_switches_disable err_bclk_disable regulator_disable
       clk_disable_unprepare skip get_ccr_bak writel_ccr bind].
  destruct (bclk p), (aclk p); cbn beta iota;
  repeat match goal with
         | |- context [if (?a <? ?b) then _ else _] =>
             let E := fresh "E" in destruct (a <? b) eqn:E; cbn beta iota
         end;
  rewrite ?(switches_supply_dis_trace_only p e); cbn; ltb_facts;
  rewrite <- ?app_assoc;
  repeat match goal with
         | |- context [(?x =? 0)] => let E := fresh "Z" in destruct (x =? 0) eqn:E
         end; leb_facts; try lia; reflexivity.
Qed.

Lemma hw_stop_state p e s :
  stm32_adc_core_hw_stop p e s =
  (tt, {| trace := trace s ++ events_of (stm32_adc_core_hw_stop p) e;
          ccr_reg := ccr_reg s; ccr_bak := ccr_reg s |}).
Proof.
  unfold events_of, stm32_adc_core_hw_stop.
  cbv [bind ret emit skip readl_ccr set_ccr_bak regulator_disable
       clk_disable_unprepare].
  destruct (aclk p), (bclk p);
    rewrite !(switches_supply_dis_trace_only p e); cbn; rewrite <- ?app_assoc;
    destruct (result_of (stm32_adc_switches_supply_dis p) e); reflexivity.
Qed.

Lemma switches_supply_dis_env p e1 e2 :
  events_of (stm32_adc_switches_supply_dis p) e1 =
  events_of (stm32_adc_switches_supply_dis p) e2.
Proof.
  destruct p as [vdda_ok0 vdd_ok0 aclk0 bclk0 vb vbc asw aswc].
  unfold events_of.
  cbv [stm32_adc_switches_supply_dis syscfg_clear vdd_used
    bind ret emit skip regulator_disable regmap_write
    vdda_ok vdd_ok vbooster vbooster_clr anaswvdd anaswvdd_clr].
  destruct vdda_ok0, vb, vdd_ok0, asw, vbc, aswc; reflexivity.
Qed.

Lemma hw_stop_events_env p e1 e2 :
  events_of (stm32_adc_core_hw_stop p) e1 = events_of (stm32_adc_core_hw_stop p) e2.
Proof.
  unfold events_of, stm32_adc_core_hw_stop.
  cbv [bind ret emit skip readl_ccr set_ccr_bak regulator_disable
       clk_disable_unprepare].
  destruct (aclk p), (bclk p);
    rewrite !(switches_supply_dis_trace_only p); cbn;
    rewrite (switches_supply_dis_env p e1 e2); reflexivity.
Qed.

Ltac balance_finish :=
  repeat rewrite ?reg_balance_app, ?clk_balance_app;
  cbn [reg_balance clk_balance reg_id_eqb clk_id_eqb andb];
  repeat match goal with
         | |- context [0 <=? ?x] => let E := fresh "L" in destruct (0 <=? x) eqn:E
         end;
  leb_facts; lia.

Lemma switches_supply_en_failure_balanced (p : stm32_adc_priv) (e : env) :
  result_of (stm32_adc_switches_supply_en p) e < 0 ->
  forall r, reg_balance r (events_of (stm32_adc_switches_supply_en p) e) = 0.
Proof.
  intros Hko r.
  destruct p as [vdda_ok0 vdd_ok0 aclk0 bclk0 vb vbc asw aswc].
  unfold result_of, events_of in *.
  cbv [stm32_adc_switches_supply_en stm32_adc_switches_set syscfg_apply
    booster_dis vdd_dis vdda_dis vdd_used anaswvdd_mask stm32_adc_switches_setting
    bind ret emit skip regulator_enable regulator_disable regulator_get_voltage
    regmap_update_bits regmap_write usleep_range
    vdda_ok vdd_ok vbooster vbooster_clr anaswvdd anaswvdd_clr] in *.
  destruct vdda_ok0, vb, vdd_ok0, asw, vbc, aswc; simpl in *; try lia.
  all: repeat match goal with
         | H : context [if ?c then _ else _] |- _ =>
             let E := fresh "E" in destruct c eqn:E; simpl in *
         end.
  all: repeat match goal with
         | |- context [if ?c then _ else _] =>
             let E := fresh "E" in destruct c eqn:E; simpl in *
         end.
  all: ztrue_facts; leb_facts; ltb_facts; destruct r; simpl; try lia.
Qed.

(** The calls of a failed [hw_start] cancel out. *)
Lemma hw_start_failure_events (p : stm32_adc_priv) (e : env)
    (Hwf : forall c, regmap_ret e c <= 0)
    (H : result_of (stm32_adc_core_hw_start p) e <> 0) :
  result_of (stm32_adc_core_hw_start p) e < 0 /\
  (forall r, reg_balance r (events_of (stm32_adc_core_hw_start p) e) = 0) /\
  (forall c, clk_balance c (events_of (stm32_adc_core_hw_start p) e) = 0).
Proof.
  pose proof (proj2 (switches_supply_en_clk_free p) e) as Cen.
  pose proof (proj2 (switches_supply_dis_clk_free p) e) as Cdis.
  unfold result_of, events_of, stm32_adc_core_hw_start, bind in *.
  rewrite (switches_supply_en_trace_only p e s_empty) in *.
  cbv beta iota zeta in *.
  destruct (result_of (stm32_adc_switches_supply_en p) e <? 0) eqn:E0.
  { apply Z.ltb_lt in E0; cbn in *.
    split; [exact E0|].
    split; [exact (switches_supply_en_failure_balanced p e E0) | exact Cen]. }
  apply Z.ltb_ge in E0.
  pose proof (switches_supply_balanced p e Hwf E0) as Hbal.
  cbv [ret emit regulator_enable clk_prepare_enable err_regulator_disable
       err_switches_disable err_bclk_disable regulator_disable
       clk_disable_unprepare skip get_ccr_bak writel_ccr bind] in *.
  destruct (bclk p), (aclk p); cbn beta iota in *;
  repeat match goal with
         | |- context [if (?a <? ?b) then _ else _] =>
             let E := fresh "E" in destruct (a <? b) eqn:E; cbn beta iota in *
         end;
  rewrite ?(switches_supply_dis_trace_only p e) in *; cbn in *; ltb_facts;
  try lia;
  set (A := events_of (stm32_adc_switches_supply_en p) e) in *;
  set (B := events_of (stm32_adc_switches_supply_dis p) e) in *;
  clearbody A B;
  (split; [lia|]);
  split; intros x; try specialize (Hbal x); try specialize (Cen x);
    try specialize (Cdis x); rewrite ?reg_balance_app in Hbal;
    destruct x; balance_finish.
Qed.

(** A successful [hw_start] followed by [hw_stop]: the calls cancel out. *)
Lemma hw_start_stop_events (p : stm32_adc_priv) (e : env)
    (Hwf : forall c, regmap_ret e c <= 0)
    (H : result_of (stm32_adc_core_hw_start p) e = 0) :
  (forall r, reg_balance r (events_of (stm32_adc_core_hw_start p) e ++
                            events_of (stm32_adc_core_hw_stop p) e) = 0) /\
  (forall c, clk_balance c (events_of (stm32_adc_core_hw_start p) e ++
                            events_of (stm32_adc_core_hw_stop p) e) = 0).
Proof.
  pose proof (proj2 (switches_supply_en_clk_free p) e) as Cen.
  pose proof (proj2 (switches_supply_dis_clk_free p) e) as Cdis.
  unfold result_of, events_of, stm32_adc_core_hw_start, stm32_adc_core_hw_stop,
    bind in *.
  rewrite (switches_supply_en_trace_only p e s_empty) in *.
  cbv beta iota zeta in *.
  destruct (result_of (stm32_adc_switches_supply_en p) e <? 0) eqn:E0;
    [apply Z.ltb_lt in E0; cbn in H; lia|].
  apply Z.ltb_ge in E0.
  pose proof (switches_supply_balanced p e Hwf E0) as Hbal.
  cbv [ret emit regulator_enable clk_prepare_enable err_regulator_disable
       err_switches_disable err_bclk_disable regulator_disable
       clk_disable_unprepare skip get_ccr_bak writel_ccr readl_ccr set_ccr_bak
       bind] in *.
  destruct (bclk p), (aclk p); cbn beta iota in *;
  repeat match goal with
         | |- context [if (?a <? ?b) then _ else _] =>
             let E := fresh "E" in destruct (a <? b) eqn:E; cbn beta iota in *
         end;
  rewrite ?(switches_supply_dis_trace_only p e) in *; cbn in *; ltb_facts;
  try lia;
  set (A := events_of (stm32_adc_switches_supply_en p) e) in *;
  set (B := events_of (stm32_adc_switches_supply_dis p) e) in *;
  clearbody A B;
  split; intros x; try specialize (Hbal x); try specialize (Cen x);
    try specialize (Cdis x); rewrite ?reg_balance_app in Hbal;
    destruct x; balance_finish.
Qed.

(** X17: when the probe sequence fails at any step, every regulator and
    clock it enabled has been disabled again (regmap accessors return 0 or
    a negative errno). *)
Theorem probe_failure_balanced (cfg : stm32_adc_priv_cfg)
    (dvb dvbc dasw daswc : syscfg_dt) (p : stm32_adc_priv) (max_rate : option Z)
    (platform_get_irq : nat -> Z) (domain_ok : bool) (te : trig_env)
    (trinfo : list string) (children : list trig_child) (populate_ret : Z)
    (e : env) (s : hw_state)
    (Hwf : forall c, regmap_ret e c <= 0)
    (H : fst (stm32_adc_probe_seq cfg dvb dvbc dasw daswc p max_rate platform_get_irq
                domain_ok te trinfo children populate_ret e s) <> 0) :
  exists added,
    trace (snd (stm32_adc_probe_seq cfg dvb dvbc dasw daswc p max_rate platform_get_irq
                  domain_ok te trinfo children populate_ret e s)) = trace s ++ added /\
    (forall r, reg_balance r added = 0) /\ (forall c, clk_balance c added = 0).
Proof.
  revert H; unfold stm32_adc_probe_seq.
  destruct (stm32_adc_syscfg_probe cfg dvb dvbc dasw daswc p) as [r p'].
  destruct (ztrue r).
  { intros _; exists []; rewrite app_nil_r; split; [reflexivity | split; reflexivity]. }
  cbv [bind]; rewrite !hw_start_state; cbn beta iota.
  destruct (ztrue (result_of (stm32_adc_core_hw_start p') e)) eqn:Hr.
  { intros H; cbn in H |- *.
    apply ztrue_spec in Hr.
    destruct (hw_start_failure_events p' e Hwf Hr) as (_ & B1 & B2).
    eexists; split; [reflexivity | split; assumption]. }
  unfold ztrue in Hr; apply negb_false_iff, Z.eqb_eq in Hr; rewrite Hr; cbn [Z.eqb].
  destruct (hw_start_stop_events p' e Hwf Hr) as [B1 B2].
  cbv [bind ret regulator_get_voltage emit readl_ccr writel_ccr].
  cbn beta iota.
  destruct (stm32_adc_irq_probe platform_get_irq domain_ok) as [[ri irqs] lines].
  destruct (stm32_adc_triggers_probe te trinfo children) as [rt st].
  repeat (cbn beta iota zeta;
          match goal with
          | |- context [if ?c then _ else _] => destruct c
          | |- context [match run_clk_sel ?a ?b ?c ?d ?f with _ => _ end] =>
              destruct (run_clk_sel a b c d f)
          end);
  cbn beta iota zeta; rewrite ?hw_stop_state; cbn [fst snd trace];
  intros H; try (exfalso; apply H; reflexivity);
  (eexists; split; [rewrite <- !app_assoc; reflexivity|]);
  (split; intros x; [specialize (B1 x) | specialize (B2 x)];
    rewrite ?reg_balance_app, ?clk_balance_app in *;
    cbn [reg_balance clk_balance]; lia).
Qed.

Lemma clk_sel_errno k aclk bclk max_clk_rate ccr r :
  run_clk_sel k aclk bclk max_clk_rate ccr = inl r -> r = - ENOENT \/ r = - EINVAL.
Proof.
  destruct k; cbn [run_clk_sel].
  - unfold stm32f4_adc_clk_sel; destruct aclk as [a|]; [|injection 1; auto].
    destruct (a =? 0); [injection 1; auto|].
    destruct (_ <=? _)%nat; [injection 1; auto | discriminate].
  - unfold stm32h7_adc_clk_sel, stm32h7_adc_clk_sync.
    destruct bclk as [b|]; [|injection 1; auto].
    destruct aclk as [a|]; [destruct (a =? 0); [injection 1; auto|];
                            destruct (stm32h7_ck_scan _ _ _ _); [discriminate|]|];
    (destruct (b =? 0); [injection 1; auto|]);
    (destruct (stm32h7_ck_scan _ _ _ _); [discriminate | injection 1; auto]).
Qed.

Lemma syscfg_probe_clocks cfg dvb dvbc dasw daswc p :
  aclk (snd (stm32_adc_syscfg_probe cfg dvb dvbc dasw daswc p)) = aclk p /\
  bclk (snd (stm32_adc_syscfg_probe cfg dvb dvbc dasw daswc p)) = bclk p.
Proof.
  unfold stm32_adc_syscfg_probe.
  destruct (stm32_adc_get_syscfg_cell dvb), (stm32_adc_get_syscfg_cell dvbc),
    (stm32_adc_get_syscfg_cell dasw), (stm32_adc_get_syscfg_cell daswc);
  cbv zeta; repeat (destruct (ztrue _)); try destruct (_ && _); split; reflexivity.
Qed.

(** X18: when the probe sequence succeeds, the syscfg probe and [hw_start]
    succeeded, and the common control register holds what the clock
    selection computes from the value saved in [priv->ccr_bak]. *)
Theorem probe_success_ccr (cfg : stm32_adc_priv_cfg)
    (dvb dvbc dasw daswc : syscfg_dt) (p : stm32_adc_priv) (max_rate : option Z)
    (platform_get_irq : nat -> Z) (domain_ok : bool) (te : trig_env)
    (trinfo : list string) (children : list trig_child) (populate_ret : Z)
    (e : env) (s : hw_state)
    (H : fst (stm32_adc_probe_seq cfg dvb dvbc dasw daswc p max_rate platform_get_irq
                domain_ok te trinfo children populate_ret e s) = 0) :
  fst (stm32_adc_syscfg_probe cfg dvb dvbc dasw daswc p) = 0 /\
  result_of (stm32_adc_core_hw_start
               (snd (stm32_adc_syscfg_probe cfg dvb dvbc dasw daswc p))) e = 0 /\
  exists pl,
    run_clk_sel (clk_sel cfg) (aclk p) (bclk p)
      (stm32_adc_max_clk_rate cfg max_rate) (ccr_bak s) = inr pl /\
    ccr_reg (snd (stm32_adc_probe_seq cfg dvb dvbc dasw daswc p max_rate platform_get_irq
                    domain_ok te trinfo children populate_ret e s)) = pl_ccr pl.
Proof.
  destruct (syscfg_probe_clocks cfg dvb dvbc dasw daswc p) as [Ka Kb].
  revert H; unfold stm32_adc_probe_seq.
  destruct (stm32_adc_syscfg_probe cfg dvb dvbc dasw daswc p) as [r p']; cbn [fst snd] in *.
  rewrite <- Ka, <- Kb.
  destruct (ztrue r) eqn:Hr0; [cbn; intros ->; discriminate|].
  unfold ztrue in Hr0; apply negb_false_iff, Z.eqb_eq in Hr0.
  cbv [bind]; rewrite !hw_start_state; cbn beta iota.
  destruct (ztrue (result_of (stm32_adc_core_hw_start p') e)) eqn:Hr.
  { cbn; intros H; apply ztrue_spec in Hr; contradiction. }
  unfold ztrue in Hr; apply negb_false_iff, Z.eqb_eq in Hr; rewrite Hr; cbn [Z.eqb].
  cbv [bind ret regulator_get_voltage emit readl_ccr writel_ccr].
  destruct (stm32_adc_irq_probe platform_get_irq domain_ok) as [[ri irqs] lines].
  destruct (stm32_adc_triggers_probe te trinfo children) as [rt st].
  repeat (cbn beta iota zeta;
          match goal with
          | |- context [if ?c then _ else _] => destruct c eqn:?
          | |- context [match run_clk_sel ?a ?b ?c ?d ?f with _ => _ end] =>
              destruct (run_clk_sel a b c d f) eqn:?
          end);
  cbn beta iota zeta; rewrite ?hw_stop_state; cbn [fst snd trace ccr_reg ccr_bak];
  intros H; ltb_facts; try lia;
  try match goal with
      | E : run_clk_sel _ _ _ _ _ = inl _ |- _ =>
          apply clk_sel_errno in E; unfold ENOENT, EINVAL in E; lia
      end.
  split; [exact Hr0 | split; [reflexivity|]].
  eexists; split; [eassumption | reflexivity].
Qed.

(** X1: a failed [hw_start] returns a negative value, leaves the control
    register and its backup untouched, and disables every regulator and
    clock it enabled (regmap accessors return 0 or a negative errno). *)
Theorem hw_start_failure_rollback (p : stm32_adc_priv) (e : env) (s : hw_state)
    (Hwf : forall c, regmap_ret e c <= 0)
    (H : fst (stm32_adc_core_hw_start p e s) <> 0) :
  fst (stm32_adc_core_hw_start p e s) < 0 /\
  exists added,
    snd (stm32_adc_core_hw_start p e s) =
      {| trace := trace s ++ added; ccr_reg := ccr_reg s; ccr_bak := ccr_bak s |} /\
    (forall r, reg_balance r added = 0) /\ (forall c, clk_balance c added = 0).
Proof.
  rewrite hw_start_state in *; cbn [fst snd] in *.
  destruct (hw_start_failure_events p e Hwf H) as (H1 & H2 & H3).
  split; [exact H1|].
  exists (events_of (stm32_adc_core_hw_start p) e); split; [|split; assumption].
  apply Z.eqb_neq in H; rewrite H; reflexivity.
Qed.

(** X2: a successful [hw_start] followed by [hw_stop] (whatever the
    providers return then) disables every regulator and clock it enabled. *)
Theorem hw_start_stop_balanced (p : stm32_adc_priv) (e1 e2 : env) (s : hw_state)
    (Hwf : forall c, regmap_ret e1 c <= 0)
    (H : fst (stm32_adc_core_hw_start p e1 s) = 0) :
  exists added,
    trace (snd (stm32_adc_core_hw_stop p e2 (snd (stm32_adc_core_hw_start p e1 s))))
      = trace s ++ added /\
    (forall r, reg_balance r added = 0) /\ (forall c, clk_balance c added = 0).
Proof.
  rewrite hw_start_state in *; cbn [fst snd] in H |- *.
  rewrite hw_stop_state; cbn [snd trace].
  rewrite (hw_stop_events_env p e2 e1).
  destruct (hw_start_stop_events p e1 Hwf H) as [B1 B2].
  rewrite <- app_assoc; eexists; split; [reflexivity | split; assumption].
Qed.

(** X3: [hw_stop] ignores what the providers return: it makes the same calls
    and leaves the same state whatever the environment. *)
Theorem hw_stop_env_independent (p : stm32_adc_priv) (e1 e2 : env) (s : hw_state) :
  stm32_adc_core_hw_stop p e1 s = stm32_adc_core_hw_stop p e2 s.
Proof. rewrite !hw_stop_state, (hw_stop_events_env p e1 e2); reflexivity. Qed.

(** X8: with the stm32h7 register set the third instance's masks are zero,
    so lines 2 and 5 are never delivered. *)
Theorem h7_third_instance_silent (STM32H7_EOCIE status : Z) (ier : nat -> Z) :
  ~ In 2%nat (stm32_adc_irq_handler (stm32h7_adc_common_regs STM32H7_EOCIE) status ier) /\
  ~ In 5%nat (stm32_adc_irq_handler (stm32h7_adc_common_regs STM32H7_EOCIE) status ier).
Proof.
  split; intros Hin.
  - apply (irq_handler_regular _ _ _ 2%nat) in Hin; [|lia].
    destruct Hin as [H _]; apply H; cbn; apply Z.land_0_r.
  - apply (irq_handler_injected _ _ _ 2%nat) in Hin; [|lia].
    apply Hin; cbn; apply Z.land_0_r.
Qed.

(** Sample inputs for the probe path: syscfg cells found with their reg
    and mask, two trigger children, mp1-like interrupt lines (line 1
    missing) and frameworks that all succeed. *)
Definition sample_dt (reg mask : Z) : syscfg_dt :=
  {| dt_lookup := 0; dt_reg_ret := 0; dt_reg := reg; dt_mask_ret := 0; dt_mask := mask |}.

Definition sample_get_irq (i : nat) : Z :=
  match i with 0%nat => 40 | 1%nat => - ENXIO | _ => 41 end.

Definition sample_trig_env : trig_env :=
  {| trig_alloc_ok := fun _ => true; trig_register_ret := fun _ => 0;
     request_irq_ret := fun _ => 0 |}.

Definition sample_trig_children : list trig_child :=
  [ {| tc_names := ["exti15"%string]; tc_irq := 31 |};
    {| tc_names := ["exti11"%string]; tc_irq := 30 |} ].

Definition sample_probe (populate_ret : Z) : M Z :=
  stm32_adc_probe_seq stm32mp1_adc_priv_cfg (sample_dt 4 256) (sample_dt 68 256)
    (sample_dt 4 512) (sample_dt 68 512) sample_priv None sample_get_irq true
    sample_trig_env stm32h7_adc_exti_trigs sample_trig_children populate_ret.

Lemma hw_start_failure_rollback_witness :
  let e := sample_env 2600000 2500000 (-5) in
  fst (stm32_adc_core_hw_start sample_priv e s_empty) < 0 /\
  exists added,
    snd (stm32_adc_core_hw_start sample_priv e s_empty) =
      {| trace := [] ++ added; ccr_reg := 0; ccr_bak := 0 |} /\
    (forall r, reg_balance r added = 0) /\ (forall c, clk_balance c added = 0).
Proof.
  apply (hw_start_failure_rollback sample_priv (sample_env 2600000 2500000 (-5)) s_empty).
  - intros []; cbn; lia.
  - vm_compute; discriminate.
Defined.

Lemma hw_start_stop_balanced_witness :
  let e := sample_env 2600000 2500000 0 in
  exists added,
    trace (snd (stm32_adc_core_hw_stop sample_priv e
                  (snd (stm32_adc_core_hw_start sample_priv e s_empty)))) = [] ++ added /\
    (forall r, reg_balance r added = 0) /\ (forall c, clk_balance c added = 0).
Proof.
  apply (hw_start_stop_balanced sample_priv (sample_env 2600000 2500000 0)
           (sample_env 2600000 2500000 0) s_empty).
  - intros []; cbn; lia.
  - vm_compute; reflexivity.
Defined.

Lemma f4_clk_sel_ccr_fields_witness :
  exists pl, stm32f4_adc_clk_sel (Some 84000000) None 36000000 (-1) = inr pl /\
  Z.land (pl_ccr pl) (Z.lnot STM32F4_ADC_ADCPRE_MASK) =
    Z.land (-1) (Z.lnot STM32F4_ADC_ADCPRE_MASK) /\
  Z.shiftr (Z.land (pl_ccr pl) STM32F4_ADC_ADCPRE_MASK) STM32F4_ADC_ADCPRE_SHIFT =
    pl_presc pl /\
  pl_div pl = nth (Z.to_nat (pl_presc pl)) stm32f4_pclk_div 0.
Proof.
  eexists; split; [vm_compute; reflexivity|].
  apply (f4_clk_sel_ccr_fields (Some 84000000) None 36000000 (-1)).
  vm_compute; reflexivity.
Defined.

Lemma h7_clk_sel_ccr_fields_witness :
  exists pl, stm32h7_adc_clk_sel (Some 80000000) (Some 200000000) 36000000 (-1) = inr pl /\
  let M := Z.lor STM32H7_CKMODE_MASK STM32H7_PRESC_MASK in
  Z.land (pl_ccr pl) (Z.lnot M) = Z.land (-1) (Z.lnot M) /\
  Z.shiftr (Z.land (pl_ccr pl) STM32H7_CKMODE_MASK) STM32H7_CKMODE_SHIFT =
    pl_ckmode pl /\
  Z.shiftr (Z.land (pl_ccr pl) STM32H7_PRESC_MASK) STM32H7_PRESC_SHIFT =
    pl_presc pl /\
  In (ck (pl_ckmode pl) (pl_presc pl) (pl_div pl)) stm32h7_adc_ckmodes_spec.
Proof.
  eexists; split; [vm_compute; reflexivity|].
  apply (h7_clk_sel_ccr_fields (Some 80000000) (Some 200000000) 36000000 (-1)).
  vm_compute; reflexivity.
Defined.

Lemma f4_clk_sel_success_witness :
  (exists pl, stm32f4_adc_clk_sel (Some 84000000) None 36000000 0 = inr pl) <->
  (exists r, Some 84000000 = Some r /\ r <> 0 /\ r / 8 <= 36000000).
Proof.
  apply (f4_clk_sel_success (Some 84000000) None 36000000 0).
  intros r H; injection H as <-; lia.
Defined.

Lemma h7_clk_sel_success_witness :
  (exists pl, stm32h7_adc_clk_sel None (Some 200000000) 36000000 0 = inr pl) <->
  (exists b, Some 200000000 = Some b /\ b <> 0 /\ b / 4 <= 36000000).
Proof.
  apply (h7_clk_sel_success None (Some 200000000) 36000000 0).
  - discriminate.
  - intros r H; injection H as <-; lia.
Defined.

Lemma irq_probe_lines_witness :
  [40; - ENXIO; 41] = [sample_get_irq 0%nat; sample_get_irq 1%nat; sample_get_irq 2%nat] /\
  [40; 41] = filter (fun irq => 0 <=? irq) [40; - ENXIO; 41] /\
  In (sample_get_irq 0%nat) [40; 41] /\
  stm32_adc_irq_remove [40; - ENXIO; 41] = ([0; 1; 2; 3; 4; 5]%nat, [40; 41]).
Proof.
  apply (irq_probe_lines sample_get_irq true). vm_compute; reflexivity.
Defined.

Lemma get_syscfg_cell_ok_witness :
  (snd (stm32_adc_get_syscfg_cell (sample_dt 4 256)) = None <->
   dt_lookup (sample_dt 4 256) = - ENODEV) /\
  (forall c, snd (stm32_adc_get_syscfg_cell (sample_dt 4 256)) = Some c ->
     c = {| sc_reg := 4; sc_mask := 256 |}).
Proof.
  apply (get_syscfg_cell_ok (sample_dt 4 256)). reflexivity.
Defined.

Lemma syscfg_probe_ok_witness :
  let r := stm32_adc_syscfg_probe stm32mp1_adc_priv_cfg (sample_dt 4 256)
             (sample_dt 68 256) (sample_dt 4 512) (sample_dt 68 512) sample_priv in
  snd r = with_syscfg sample_priv (Some {| sc_reg := 4; sc_mask := 256 |})
            (Some {| sc_reg := 68; sc_mask := 256 |}) (Some {| sc_reg := 4; sc_mask := 512 |})
            (Some {| sc_reg := 68; sc_mask := 512 |}) /\
  (true = true ->
     (vbooster (snd r) <> None -> vbooster_clr (snd r) <> None) /\
     (anaswvdd (snd r) <> None -> anaswvdd_clr (snd r) <> None)).
Proof.
  apply (syscfg_probe_ok stm32mp1_adc_priv_cfg (sample_dt 4 256) (sample_dt 68 256)
           (sample_dt 4 512) (sample_dt 68 512) sample_priv).
  reflexivity.
Defined.

Lemma triggers_probe_ok_witness :
  let st := snd (stm32_adc_triggers_probe sample_trig_env stm32h7_adc_exti_trigs
                   sample_trig_children) in
  extrig_list st = ["exti11"; "exti15"]%string /\
  disabled_irqs st = [30; 31] /\
  Forall (fun irq => 0 < irq) (disabled_irqs st).
Proof.
  apply (triggers_probe_ok sample_trig_env stm32h7_adc_exti_trigs sample_trig_children).
  vm_compute; reflexivity.
Defined.

Lemma triggers_probe_errno_witness :
  let te := {| trig_alloc_ok := fun _ => true; trig_register_ret := fun _ => 0;
               request_irq_ret := fun _ => 0 |} in
  let c1 := {| tc_names := ["exti15"%string]; tc_irq := 31 |} in
  let c2 := {| tc_names := ["exti11"%string]; tc_irq := 0 |} in
  fst (stm32_adc_triggers_probe te stm32h7_adc_exti_trigs [c1; c2]) <= 0 /\
  fst (stm32_adc_triggers_probe te stm32h7_adc_exti_trigs [c1; c2]) = - ENODEV.
Proof.
  intros te c1 c2; split.
  - apply (proj1 (triggers_probe_errno te stm32h7_adc_exti_trigs [c1; c2]));
      intros; cbn; lia.
  - exact (proj2 (triggers_probe_errno te stm32h7_adc_exti_trigs [c1; c2])
             [] "exti11"%string ["exti15"%string] [c1] c2 []
             eq_refl eq_refl eq_refl eq_refl eq_refl eq_refl eq_refl
             ltac:(cbn; lia)).
Defined.

Lemma probe_failure_balanced_witness :
  let e := sample_env 2600000 2500000 0 in
  exists added,
    trace (snd (sample_probe (- ENOMEM) e s_empty)) = [] ++ added /\
    (forall r, reg_balance r added = 0) /\ (forall c, clk_balance c added = 0).
Proof.
  apply (probe_failure_balanced stm32mp1_adc_priv_cfg (sample_dt 4 256) (sample_dt 68 256)
    (sample_dt 4 512) (sample_dt 68 512) sample_priv None sample_get_irq true
    sample_trig_env stm32h7_adc_exti_trigs sample_trig_children (- ENOMEM)
    (sample_env 2600000 2500000 0) s_empty).
  - intros []; cbn; lia.
  - vm_compute; discriminate.
Defined.

Lemma probe_success_ccr_witness :
  let e := sample_env 2600000 2500000 0 in
  let s := {| trace := []; ccr_reg := 0; ccr_bak := 327680 |} in
  fst (stm32_adc_syscfg_probe stm32mp1_adc_priv_cfg (sample_dt 4 256) (sample_dt 68 256)
         (sample_dt 4 512) (sample_dt 68 512) sample_priv) = 0 /\
  result_of (stm32_adc_core_hw_start
    (snd (stm32_adc_syscfg_probe stm32mp1_adc_priv_cfg (sample_dt 4 256)
            (sample_dt 68 256) (sample_dt 4 512) (sample_dt 68 512) sample_priv))) e = 0 /\
  exists pl,
    run_clk_sel CLK_SEL_H7 (Some 80000000) (Some 200000000)
      (stm32_adc_max_clk_rate stm32mp1_adc_priv_cfg None) 327680 = inr pl /\
    ccr_reg (snd (sample_probe 0 e s)) = pl_ccr pl.
Proof.
  apply (probe_success_ccr stm32mp1_adc_priv_cfg (sample_dt 4 256) (sample_dt 68 256)
    (sample_dt 4 512) (sample_dt 68 512) sample_priv None sample_get_irq true
    sample_trig_env stm32h7_adc_exti_trigs sample_trig_children 0
    (sample_env 2600000 2500000 0) {| trace := []; ccr_reg := 0; ccr_bak := 327680 |}).
  vm_compute; reflexivity.
Defined.
